(** * Risk-gated signal-to-trade engine: a shallow embedding

    The development follows the backend sources:
    - [Strategy]       : models/Strategy.js   (confidence learning)
    - [TradingConfig]  : models/TradingConfig.js (daily stats, circuit breaker)
    - [TradingService] : services/tradingService.js (signal parsing, admission
                         guards, position sizing, execution)

    JavaScript numbers are modelled as exact rationals [Q]; the few places
    where the source can produce a non-finite number (a division by a zero
    price, an unparsable ticker) go through [JsNumber]. *)

From Stdlib Require Import QArith Qround Qminmax Qabs Lqa ZArith Lia.
From Stdlib Require Import List String Ascii Bool.
Import ListNotations.

Local Open Scope Q_scope.

(** ** JavaScript number helpers *)

Module Js.

(** [a > b] on numbers. *)
Definition gtb (a b : Q) : bool := negb (Qle_bool a b).

(** [a >= b] on numbers. *)
Definition geb (a b : Q) : bool := Qle_bool b a.

(** [a <= b] on numbers. *)
Definition leb (a b : Q) : bool := Qle_bool a b.

(** Truthiness of a number: every number except zero. *)
Definition truthy (a : Q) : bool := negb (Qeq_bool a 0).

(** [Math.floor], landing back in the numbers. *)
Definition floor (a : Q) : Q := inject_Z (Qfloor a).

(** A number that may be non-finite.  [Infinite true] is [+Infinity]. *)
Inductive JsNumber :=
| Finite (q : Q)
| Infinite (positive : bool)
| NaN.

(** Truthiness of a possibly missing number ([null], [undefined], [0] and
    [NaN] are falsy). *)
Definition truthyNum (n : option JsNumber) : bool :=
  match n with
  | Some (Finite q) => truthy q
  | Some (Infinite _) => true
  | Some NaN | None => false
  end.

(** [a / b] for a finite numerator.  Zero carries no sign here, so a zero
    divisor is taken as [+0]. *)
Definition divNum (a : Q) (b : JsNumber) : JsNumber :=
  match b with
  | Finite q =>
      if truthy q then Finite (a / q)
      else if gtb a 0 then Infinite true
      else if gtb 0 a then Infinite false
      else NaN
  | Infinite _ => Finite 0
  | NaN => NaN
  end.

(** Lifts a map on finite numbers that keeps [Infinity] and [NaN] as they
    are (multiplying or dividing by a positive constant, [Math.floor]). *)
Definition mapNum (f : Q -> Q) (n : JsNumber) : JsNumber :=
  match n with
  | Finite q => Finite (f q)
  | other => other
  end.

(** *** Strings *)

Definition newline : ascii := ascii_of_nat 10.

Fixpoint startsWith (p s : string) : bool :=
  match p, s with
  | EmptyString, _ => true
  | String _ _, EmptyString => false
  | String a p', String b s' => Ascii.eqb a b && startsWith p' s'
  end.

Fixpoint drop (n : nat) (s : string) : string :=
  match n, s with
  | O, _ => s
  | S _, EmptyString => EmptyString
  | S n', String _ s' => drop n' s'
  end.

(** [s.includes(p)] *)
Fixpoint includes (p s : string) : bool :=
  startsWith p s ||
  match s with
  | EmptyString => false
  | String _ s' => includes p s'
  end.

(** [s.replace(p, r)] with a string pattern: only the first occurrence
    is replaced. *)
Fixpoint replace (p r s : string) {struct s} : string :=
  if startsWith p s then String.append r (drop (String.length p) s)
  else match s with
       | EmptyString => EmptyString
       | String c s' => String c (replace p r s')
       end.

(** [s.split(sep)] for a one-character separator. *)
Fixpoint split (sep : ascii) (s : string) : list string :=
  match s with
  | EmptyString => [EmptyString]
  | String c s' =>
      if Ascii.eqb c sep then EmptyString :: split sep s'
      else match split sep s' with
           | [] => [String c EmptyString]
           | h :: t => String c h :: t
           end
  end.

Definition isSpace (c : ascii) : bool :=
  let n := nat_of_ascii c in
  ((9 <=? n) && (n <=? 13))%nat || (n =? 32)%nat.

Fixpoint trimStart (s : string) : string :=
  match s with
  | EmptyString => EmptyString
  | String c s' => if isSpace c then trimStart s' else s
  end.

Fixpoint trimEnd (s : string) : string :=
  match s with
  | EmptyString => EmptyString
  | String c s' =>
      match trimEnd s' with
      | EmptyString => if isSpace c then EmptyString else String c EmptyString
      | rest => String c rest
      end
  end.

(** [s.trim()] (ASCII white space). *)
Definition trim (s : string) : string := trimEnd (trimStart s).

Definition upper (c : ascii) : ascii :=
  let n := nat_of_ascii c in
  if ((97 <=? n) && (n <=? 122))%nat then ascii_of_nat (n - 32) else c.

(** [s.toUpperCase()] (ASCII letters). *)
Fixpoint toUpperCase (s : string) : string :=
  match s with
  | EmptyString => EmptyString
  | String c s' => String (upper c) (toUpperCase s')
  end.

(** Truthiness of a possibly missing string. *)
Definition truthyStr (s : option string) : bool :=
  match s with
  | Some (String _ _) => true
  | _ => false
  end.

(** *** [parseFloat] on decimal literals *)

Definition digit (c : ascii) : option Z :=
  let n := nat_of_ascii c in
  if ((48 <=? n) && (n <=? 57))%nat then Some (Z.of_nat (n - 48)) else None.

(** Longest run of digits: its value, its length and the rest. *)
Fixpoint digits (acc : Z) (count : nat) (s : string) : Z * nat * string :=
  match s with
  | EmptyString => (acc, count, s)
  | String c s' =>
      match digit c with
      | Some d => digits (10 * acc + d) (S count) s'
      | None => (acc, count, s)
      end
  end.

Definition sign (s : string) : bool * string :=
  match s with
  | String c s' =>
      if Ascii.eqb c "-" then (true, s')
      else if Ascii.eqb c "+" then (false, s')
      else (false, s)
  | EmptyString => (false, s)
  end.

Definition pow10 (e : Z) : Q :=
  if (0 <=? e)%Z then inject_Z (10 ^ e) else / inject_Z (10 ^ (- e)).

(** An exponent part is read only when at least one digit follows it. *)
Definition exponent (s : string) : Z :=
  match s with
  | String c s' =>
      if Ascii.eqb c "e" || Ascii.eqb c "E" then
        let '(neg, s1) := sign s' in
        let '(e, n, _) := digits 0 0 s1 in
        if (n =? 0)%nat then 0%Z else if neg then (- e)%Z else e
      else 0%Z
  | EmptyString => 0%Z
  end.

Definition parseFloat (s : string) : JsNumber :=
  let '(neg, s0) := sign (trimStart s) in
  if startsWith "Infinity" s0 then Infinite (negb neg)
  else
    let '(ip, n1, s1) := digits 0 0 s0 in
    let '(fp, n2, s2) :=
      match s1 with
      | String c s1' =>
          if Ascii.eqb c "." then digits 0 0 s1' else (0%Z, O, s1)
      | EmptyString => (0%Z, O, s1)
      end in
    if (n1 + n2 =? 0)%nat then NaN
    else
      let m := inject_Z ip + inject_Z fp * pow10 (- Z.of_nat n2) in
      let v := m * pow10 (exponent s2) in
      Finite (if neg then - v else v).

End Js.

(** ** models/Strategy.js *)

Module Strategy.

Record t := mk {
  totalTrades : nat;
  winningTrades : nat;
  losingTrades : nat;
  winRate : Q;
  totalPnL : Q;
  avgPnL : Q;
  confidenceScore : Q;
  consecutiveLosses : nat
}.

Definition learningRate : Q := 1 # 10.
Definition maxConfidence : Q := 95.
Definition minConfidence : Q := 5.

Definition set_confidence (s : t) (c : Q) : t :=
  mk (totalTrades s) (winningTrades s) (losingTrades s) (winRate s)
     (totalPnL s) (avgPnL s) c (consecutiveLosses s).

(** [updateConfidenceScore(isWin)]: the learning step, then the additional
    penalty when the strategy already has three losses in a row. *)
Definition updateConfidenceScore (isWin : bool) (s : t) : t :=
  let c := confidenceScore s in
  let c1 :=
    if isWin
    then Qmin maxConfidence (c + learningRate * (100 - c))
    else Qmax minConfidence (c - learningRate * c) in
  let c2 :=
    if (3 <=? consecutiveLosses s)%nat
    then Qmax minConfidence (c1 * (8 # 10))
    else c1 in
  set_confidence s c2.

Definition nat_to_Q (n : nat) : Q := inject_Z (Z.of_nat n).

(** [updatePerformance(trade)] reads only [trade.pnl]. *)
Definition updatePerformance (pnl : Q) (s : t) : t :=
  let total := S (totalTrades s) in
  let tpnl := totalPnL s + pnl in
  let avg := tpnl / nat_to_Q total in
  let win := Js.gtb pnl 0 in
  let wins := if win then S (winningTrades s) else winningTrades s in
  let losses := if win then losingTrades s else S (losingTrades s) in
  let streak := if win then O else S (consecutiveLosses s) in
  let rate := nat_to_Q wins / nat_to_Q total * 100 in
  updateConfidenceScore win
    (mk total wins losses rate tpnl avg (confidenceScore s) streak).

(** A run of calls, oldest first. *)
Definition updateConfidenceScores (wins : list bool) (s : t) : t :=
  fold_left (fun acc w => updateConfidenceScore w acc) wins s.

Definition updatePerformances (pnls : list Q) (s : t) : t :=
  fold_left (fun acc p => updatePerformance p acc) pnls s.

Definition in_band (c : Q) : Prop := 5 <= c /\ c <= 95.

(** A strategy document as [Strategy.create] makes it, with the given
    confidence. *)
Definition fresh (c : Q) : t := mk 0 0 0 0 0 0 c 0.

End Strategy.


(** ** models/TradingConfig.js *)

Module TradingConfig.

Record DailyStats := mkStats {
  currentPnL : Q;
  tradesCount : nat;
  winRate : Q;
  lastResetDate : Z
}.

Record TradingHours := mkHours {
  enabled : bool;
  startTime : string;
  endTime : string
}.

Record t := mk {
  dailyLossLimit : Q;
  capitalConservationMode : bool;
  tradingHours : TradingHours;
  dailyStats : DailyStats;
  emergencyStop : bool;
  emergencyStopReason : string;
  isActive : bool
}.

(** What a method reads from the clock: the time stamp and the local
    wall-clock time as ["HH:MM"]. *)
Record Clock := mkClock {
  now : Z;
  currentTime : string
}.

Definition resetDailyStats (clk : Clock) (c : t) : t :=
  mk (dailyLossLimit c) (capitalConservationMode c) (tradingHours c)
     (mkStats 0 0 0 (now clk))
     (emergencyStop c) (emergencyStopReason c) (isActive c).

(** [updateDailyPnL(pnl, isWin)]; [isWin] is not read by the body. *)
Definition updateDailyPnL (pnl : Q) (isWin : bool) (c : t) : t :=
  let st := dailyStats c in
  let pnl' := currentPnL st + pnl in
  let st' := mkStats pnl' (S (tradesCount st)) (winRate st) (lastResetDate st) in
  if Js.geb (Qabs pnl') (dailyLossLimit c)
  then mk (dailyLossLimit c) true (tradingHours c) st'
          true "Daily loss limit reached" (isActive c)
  else mk (dailyLossLimit c) (capitalConservationMode c) (tradingHours c) st'
          (emergencyStop c) (emergencyStopReason c) (isActive c).

Definition isTradingAllowed (clk : Clock) (c : t) : bool :=
  if emergencyStop c then false
  else if negb (isActive c) then false
  else if Js.geb (Qabs (currentPnL (dailyStats c))) (dailyLossLimit c) then false
  else if enabled (tradingHours c) then
    if String.ltb (currentTime clk) (startTime (tradingHours c))
       || String.ltb (endTime (tradingHours c)) (currentTime clk)
    then false else true
  else true.

End TradingConfig.

(** ** controllers/tradingController.js (the handlers that write the stop) *)

Module TradingController.
Import TradingConfig.

(** [POST /api/trading/emergency-stop] *)
Definition emergencyStop (reason : option string) (c : t) : t :=
  mk (dailyLossLimit c) true (tradingHours c) (dailyStats c)
     true
     (if Js.truthyStr reason
      then match reason with Some r => r | None => EmptyString end
      else "Emergency stop activated")
     false.

(** [POST /api/trading/reset-daily]: the model's reset, then the stop is
    lifted when it was raised by the loss limit. *)
Definition resetDailyStats (clk : Clock) (c : t) : t :=
  let c1 := TradingConfig.resetDailyStats clk c in
  if String.eqb (emergencyStopReason c1) "Daily loss limit reached"
  then mk (dailyLossLimit c1) false (tradingHours c1) (dailyStats c1)
          false "" (isActive c1)
  else c1.

End TradingController.

(** ** models/User.js and models/Trade.js (the fields the service touches) *)

Module Model.
Export Js.

Record RiskSettings := mkRisk {
  dailyLossCap : Q;
  maxTradeCountPerDay : Q;
  maxTradeSizePercent : Q
}.

(** [deltaApiKey] and [deltaApiSecret] hold what [decrypt] returns for the
    stored keys ([None] when it returns nothing usable). *)
Record User := mkUser {
  _id : nat;
  enabledCoins : list string;
  tradingActive : bool;
  paperTradingMode : bool;
  deltaConnected : bool;
  deltaApiKey : option string;
  deltaApiSecret : option string;
  riskSettings : RiskSettings;
  totalTrades : nat;
  winningTrades : nat;
  totalPnL : Q;
  dailyPnL : Q;
  lastTradeDate : option Z;
  consecutiveLosses : nat
}.

Inductive Status := PENDING | FILLED | CANCELLED | REJECTED.

Definition Status_eqb (a b : Status) : bool :=
  match a, b with
  | PENDING, PENDING | FILLED, FILLED
  | CANCELLED, CANCELLED | REJECTED, REJECTED => true
  | _, _ => false
  end.

Record Trade := mkTrade {
  tradeId : nat;
  userId : nat;
  symbol : string;
  side : string;
  type : string;
  quantity : JsNumber;
  price : JsNumber;
  executedPrice : JsNumber;
  status : Status;
  orderId : string;
  strategy : string;
  confidenceScore : Q;
  pnl : Q;
  fees : Q;
  paperTrade : bool;
  createdAt : Z
}.

Definition set_status (t : Trade) (st : Status) : Trade :=
  mkTrade (tradeId t) (userId t) (symbol t) (side t) (type t) (quantity t)
          (price t) (executedPrice t) st (orderId t) (strategy t)
          (confidenceScore t) (pnl t) (fees t) (paperTrade t) (createdAt t).

Definition set_orderId (t : Trade) (o : string) : Trade :=
  mkTrade (tradeId t) (userId t) (symbol t) (side t) (type t) (quantity t)
          (price t) (executedPrice t) (status t) o (strategy t)
          (confidenceScore t) (pnl t) (fees t) (paperTrade t) (createdAt t).

Definition set_executedPrice (t : Trade) (p : JsNumber) : Trade :=
  mkTrade (tradeId t) (userId t) (symbol t) (side t) (type t) (quantity t)
          (price t) p (status t) (orderId t) (strategy t)
          (confidenceScore t) (pnl t) (fees t) (paperTrade t) (createdAt t).

(** The statistics update of the trade's [post('save')] hook. *)
Definition applyFill (t : Trade) (u : User) (at_ : Z) : User :=
  let win := gtb (pnl t) 0 in
  mkUser (_id u) (enabledCoins u) (tradingActive u) (paperTradingMode u)
         (deltaConnected u) (deltaApiKey u) (deltaApiSecret u) (riskSettings u)
         (S (totalTrades u))
         (if win then S (winningTrades u) else winningTrades u)
         (totalPnL u + pnl t)
         (dailyPnL u + pnl t)
         (Some at_)
         (if win then O else S (consecutiveLosses u)).

End Model.

(** ** services/tradingService.js *)

Module TradingService.
Import Model.

(** *** Effects: the two collections, the exchange, thrown errors *)

Inductive Error :=
| InvalidSignalFormat                       (* 'Invalid signal format' *)
| TradingNotEnabled (symbol : option string) (* 'Trading not enabled for ...' *)
| DailyTradeLimitReached                    (* 'Daily trade limit reached' *)
| ConsecutiveLossesStop                     (* 'Trading stopped due to consecutive losses' *)
| DailyLossCapReached                       (* 'Daily loss cap reached' *)
| TradeValidationFailed                     (* the schema refuses the document *)
| DeltaOrderFailed.                         (* 'Failed to execute order on Delta Exchange' *)

(** Requests sent to the exchange, oldest first in [calls]. *)
Inductive Call :=
| PriceRequest (pair : string)
| OrderRequest (productId : nat) (t : Trade).

Inductive TickerReply :=
| RequestFails
| MarkPrice (p : JsNumber).

(** What the service reads from outside: the clock ([today] is the local
    midnight that [setHours(0,0,0,0)] gives) and the exchange's answers. *)
Record Env := mkEnv {
  now : Z;
  today : Z;
  ticker : string -> TickerReply;
  placeOrder : Trade -> option string
}.

Record World := mkWorld {
  trades : list Trade;
  users : list User;
  calls : list Call
}.

Inductive Outcome (A : Type) :=
| Returned (a : A)
| Thrown (e : Error).
Arguments Returned {A} a.
Arguments Thrown {A} e.

Definition M (A : Type) : Type := World -> Outcome A * World.

Definition ret {A} (a : A) : M A := fun w => (Returned a, w).

Definition throw {A} (e : Error) : M A := fun w => (Thrown e, w).

Definition bind {A B} (m : M A) (k : A -> M B) : M B :=
  fun w =>
    match m w with
    | (Returned a, w') => k a w'
    | (Thrown e, w') => (Thrown e, w')
    end.

Definition tryCatch {A} (m : M A) (handler : Error -> M A) : M A :=
  fun w =>
    match m w with
    | (Returned a, w') => (Returned a, w')
    | (Thrown e, w') => handler e w'
    end.

Definition gets {A} (f : World -> A) : M A := fun w => (Returned (f w), w).

Definition modify (f : World -> World) : M unit := fun w => (Returned tt, f w).

Notation "x <- m ;; k" := (bind m (fun x => k))
  (at level 61, m at next level, right associativity).
Notation "m ;;; k" := (bind m (fun _ => k))
  (at level 61, right associativity).

Definition request (c : Call) : M unit :=
  modify (fun w => mkWorld (trades w) (users w) (calls w ++ [c])).

(** *** The Trade collection *)

Fixpoint updateFirst {A} (p : A -> bool) (f : A -> A) (l : list A) : list A :=
  match l with
  | [] => []
  | x :: l' => if p x then f x :: l' else x :: updateFirst p f l'
  end.

(** [trade.save()]: the document is written back, then the [post('save')]
    hook updates the owner's statistics when the trade is FILLED. *)
Definition save (env : Env) (t : Trade) : M unit :=
  modify (fun w =>
    let ts := updateFirst (fun x => (tradeId x =? tradeId t)%nat) (fun _ => t) (trades w) in
    let us :=
      if Status_eqb (status t) FILLED
      then updateFirst (fun u => (_id u =? userId t)%nat)
                       (fun u => applyFill t u (now env)) (users w)
      else users w in
    mkWorld ts us (calls w)).

Definition validSide (s : option string) : bool :=
  match s with
  | Some v => String.eqb v "BUY" || String.eqb v "SELL"
  | None => false
  end.

Definition validType (s : string) : bool :=
  String.eqb s "MARKET" || String.eqb s "LIMIT".

Definition isNaN (n : JsNumber) : bool :=
  match n with NaN => true | _ => false end.

(** [Trade.create({...})] with the fields [executeTrade] passes.  The
    schema requires [side] in BUY/SELL, [type] in MARKET/LIMIT and numbers
    for [quantity] and [price]; the new document is PENDING, so the save
    hook has nothing to do. *)
Definition create (env : Env) (uid : nat) (sym : string) (sd : option string)
    (ty : string) (qty prc : JsNumber) (paper : bool) : M Trade :=
  if validSide sd && validType ty && negb (isNaN qty) && negb (isNaN prc)
  then
    n <- gets (fun w => List.length (trades w)) ;;
    let t := mkTrade n uid sym
               (match sd with Some v => v | None => EmptyString end)
               ty qty prc (Finite 0) PENDING EmptyString "webhook_signal"
               75 0 0 paper (now env) in
    modify (fun w => mkWorld (trades w ++ [t]) (users w) (calls w)) ;;;
    ret t
  else throw TradeValidationFailed.

(** [Trade.countDocuments({userId, createdAt: {$gte: today}})] *)
Definition countToday (env : Env) (uid : nat) (ts : list Trade) : nat :=
  List.length
    (filter (fun t => (userId t =? uid)%nat && (today env <=? createdAt t)%Z) ts).

(** The aggregate over today's FILLED trades, then [?.totalPnL || 0]:
    an empty match gives no group, hence zero. *)
Definition currentDayPnL (env : Env) (uid : nat) (ts : list Trade) : Q :=
  fold_left Qplus
    (map pnl
       (filter (fun t => (userId t =? uid)%nat && (today env <=? createdAt t)%Z
                         && Status_eqb (status t) FILLED) ts))
    0.

(** *** Parsing *)

Record Signal := mkSignal {
  s_symbol : option string;
  s_side : option string;
  s_price : option JsNumber;
  s_type : option string;
  s_quantity : option JsNumber
}.

(** A JSON body: text fields and JSON numbers, each possibly absent. *)
Record Payload := mkPayload {
  p_symbol : option string;
  p_action : option string;
  p_side : option string;
  p_price : option Q;
  p_type : option string;
  p_quantity : option Q
}.

Inductive RawSignal :=
| Text (s : string)
| Object (o : Payload)
| Null                 (* typeof null is 'object'; reading a field throws *)
| Other.               (* number, boolean, undefined *)

(** [symbol.replace('USDT', '')], the normalisation both branches apply. *)
Definition normalizeSymbol (s : string) : string := replace "USDT" "" s.

(** [lines.find(line => line.includes(key))?.split(':')[1]?.trim()] *)
Definition field (key : string) (lines : list string) : option string :=
  match find (includes key) lines with
  | Some line => option_map trim (nth_error (split ":" line) 1)
  | None => None
  end.

Definition orNull (n : JsNumber) : option JsNumber :=
  if truthyNum (Some n) then Some n else None.

Definition numberField (v : option Q) : option JsNumber :=
  match v with
  | Some q => if truthy q then Some (Finite q) else None
  | None => None
  end.

Definition orElse (a b : option string) : option string :=
  if truthyStr a then a else b.

Definition parseSignal (signal : RawSignal) : option Signal :=
  match signal with
  | Text s =>
      let lines := split newline s in
      let action := field "ACTION:" lines in
      let symbol := field "SYMBOL:" lines in
      let price :=
        match field "PRICE:" lines with
        | Some p => parseFloat p
        | None => NaN
        end in
      match action, symbol with
      | Some a, Some sy =>
          if truthyStr action && truthyStr symbol then
            Some (mkSignal (Some (normalizeSymbol sy))
                           (Some (if String.eqb (toUpperCase a) "BUY"
                                  then "BUY" else "SELL")%string)
                           (orNull price)
                           (Some "MARKET"%string)
                           None)
          else None
      | _, _ => None
      end
  | Object o =>
      Some (mkSignal (option_map normalizeSymbol (p_symbol o))
                     (orElse (option_map toUpperCase (p_action o))
                             (option_map toUpperCase (p_side o)))
                     (numberField (p_price o))
                     (orElse (option_map toUpperCase (p_type o))
                             (Some "MARKET"%string))
                     (numberField (p_quantity o)))
  | Null => None
  | Other => None
  end.

(** *** Sizing, pricing, execution *)

Definition calculatePositionSize (user : User) (price : JsNumber) : JsNumber :=
  let maxTradeSize := maxTradeSizePercent (riskSettings user) / 100 in
  let accountBalance := 10000 in
  let maxPositionValue := accountBalance * maxTradeSize in
  mapNum (fun x => x / 100)
    (mapNum floor (mapNum (fun x => x * 100) (divNum maxPositionValue price))).

(** [symbol + 'USDT'] where the symbol may be [undefined]. *)
Definition pairOf (symbol : option string) : string :=
  String.append (match symbol with Some s => s | None => "undefined"%string end) "USDT".

Definition getCurrentPrice (env : Env) (symbol : option string) : M JsNumber :=
  let pair := pairOf symbol in
  request (PriceRequest pair) ;;;
  match ticker env pair with
  | MarkPrice p => ret p
  | RequestFails => ret (Finite 50000)
  end.

Definition getProductId (symbol : string) : nat :=
  if String.eqb symbol "BTCUSDT" then 1
  else if String.eqb symbol "ETHUSDT" then 2
  else if String.eqb symbol "ADAUSDT" then 3
  else if String.eqb symbol "DOTUSDT" then 4
  else if String.eqb symbol "LINKUSDT" then 5
  else 1.

(** Every failure inside comes out as the same error; the order is posted
    only when both keys are there. *)
Definition executeDeltaOrder (env : Env) (user : User) (trade : Trade) : M string :=
  if truthyStr (deltaApiKey user) && truthyStr (deltaApiSecret user) then
    request (OrderRequest (getProductId (symbol trade)) trade) ;;;
    match placeOrder env trade with
    | Some id => ret id
    | None => throw DeltaOrderFailed
    end
  else throw DeltaOrderFailed.

Definition orNumber (a : option JsNumber) (b : JsNumber) : JsNumber :=
  match a with
  | Some n => if truthyNum a then n else b
  | None => b
  end.

(** [let price = signal.price; if (!price) price = await getCurrentPrice(...)] *)
Definition resolvePrice (env : Env) (signal : Signal) : M JsNumber :=
  match s_price signal with
  | Some p => if truthyNum (s_price signal) then ret p
              else getCurrentPrice env (s_symbol signal)
  | None => getCurrentPrice env (s_symbol signal)
  end.

(** [signal.type || 'MARKET'] *)
Definition typeOrMarket (signal : Signal) : string :=
  match orElse (s_type signal) (Some "MARKET"%string) with
  | Some ty => ty
  | None => "MARKET"%string
  end.

Definition executeTrade (env : Env) (user : User) (signal : Signal) : M Trade :=
  price <- resolvePrice env signal ;;
  let positionSize := calculatePositionSize user price in
  trade <- create env (_id user) (pairOf (s_symbol signal)) (s_side signal)
             (typeOrMarket signal)
             (orNumber (s_quantity signal) positionSize)
             price (paperTradingMode user) ;;
  if negb (paperTradingMode user) && deltaConnected user then
    tryCatch
      (id <- executeDeltaOrder env user trade ;;
       let placed := set_status (set_orderId trade id) PENDING in
       save env placed ;;;
       ret placed)
      (fun deltaError =>
         save env (set_status trade REJECTED) ;;;
         throw deltaError)
  else
    let filled := set_executedPrice (set_status trade FILLED) price in
    save env filled ;;;
    ret filled.

(** *** Admission *)

Definition includesCoin (coins : list string) (symbol : option string) : bool :=
  match symbol with
  | Some s => existsb (String.eqb s) coins
  | None => false
  end.

(** The guards of [processWebhookSignal], in source order, then the
    execution.  The webhook and system log writes are left out. *)
Definition processWebhookSignal (env : Env) (user : User) (signal : RawSignal) : M Trade :=
  match parseSignal signal with
  | None => throw InvalidSignalFormat
  | Some parsedSignal =>
      if negb (includesCoin (enabledCoins user) (s_symbol parsedSignal))
      then throw (TradingNotEnabled (s_symbol parsedSignal))
      else
        todayTrades <- gets (fun w => countToday env (_id user) (trades w)) ;;
        if geb (inject_Z (Z.of_nat todayTrades))
               (maxTradeCountPerDay (riskSettings user))
        then throw DailyTradeLimitReached
        else if (3 <=? consecutiveLosses user)%nat
        then throw ConsecutiveLossesStop
        else
          dayPnL <- gets (fun w => currentDayPnL env (_id user) (trades w)) ;;
          if leb dayPnL (- dailyLossCap (riskSettings user))
          then throw DailyLossCapReached
          else executeTrade env user parsedSignal
  end.

End TradingService.

(** ** Scenarios used below *)

Module Scenario.
Import TradingConfig Model TradingService.

(** Scenario A: a cap of 1000 and a day already 950 down. *)
Definition configA : TradingConfig.t :=
  mk 1000 false (mkHours false "09:00" "17:00") (mkStats (-950) 4 0 0)
     false "" true.

Definition noon : Clock := mkClock 43200000 "12:00".

(** The same configuration after the fill of Scenario A. *)
Definition stoppedConfig : TradingConfig.t := updateDailyPnL (-100) false configA.

(** A paper-trading user with the schema's default risk settings and BTC
    enabled. *)
Definition paperUser : User :=
  mkUser 7 ["BTC"%string; "ETH"%string] true true false None None
         (mkRisk 1000 10 5) 0 0 0 0 None 0.

(** An exchange that answers nothing. *)
Definition deadExchange : Env :=
  mkEnv 43200000 0 (fun _ => RequestFails) (fun _ => None).

Definition emptyWorld : World := mkWorld [] [paperUser] [].

Definition buyBTC : RawSignal :=
  Object (mkPayload (Some "BTCUSDT"%string) (Some "buy"%string) None
                    (Some 50000) None None).

Definition buyBTCAtMarket : RawSignal :=
  Object (mkPayload (Some "BTCUSDT"%string) (Some "buy"%string) None
                    None None None).

Definition buyBTCBig : RawSignal :=
  Object (mkPayload (Some "BTCUSDT"%string) (Some "buy"%string) None
                    (Some 50000) None (Some 1000)).

Definition holdText : RawSignal :=
  Text (String.append "ACTION: hold"
          (String newline (String.append "SYMBOL: BTCUSDT"
             (String newline "PRICE: 50000")))).

Definition holdObject : RawSignal :=
  Object (mkPayload (Some "BTCUSDT"%string) (Some "hold"%string) None
                    (Some 50000) None None).

(** A day that already holds one filled trade with a profit of 1500. *)
Definition profitableTrade : Trade :=
  mkTrade 0 7 "BTCUSDT" "BUY" "MARKET" (Finite (1 # 100)) (Finite 50000)
          (Finite 50000) FILLED "" "webhook_signal" 75 1500 0 true 100.

Definition profitableWorld : World := mkWorld [profitableTrade] [paperUser] [].

(** What [parseSignal] makes of [buyBTCBig] and of [buyBTCAtMarket]. *)
Definition bigSignal : Signal :=
  mkSignal (Some "BTC"%string) (Some "BUY"%string) (Some (Finite 50000))
           (Some "MARKET"%string) (Some (Finite 1000)).

Definition marketSignal : Signal :=
  mkSignal (Some "BTC"%string) (Some "BUY"%string) None
           (Some "MARKET"%string) None.

Definition returned {A} (o : Outcome A) : option A :=
  match o with
  | Returned a => Some a
  | Thrown _ => None
  end.

End Scenario.

(** ** models/Trade.js: [calculatePnL] *)

Module TradePnL.
Import Model.

(** [a - b] and [a * b] on numbers that may be non-finite (zero carries no
    sign). *)
Definition subNum (a b : JsNumber) : JsNumber :=
  match a, b with
  | NaN, _ | _, NaN => NaN
  | Finite x, Finite y => Finite (x - y)
  | Infinite s, Finite _ => Infinite s
  | Finite _, Infinite s => Infinite (negb s)
  | Infinite s, Infinite s' => if Bool.eqb s s' then NaN else Infinite s
  end.

Definition scaleInf (s : bool) (y : Q) : JsNumber :=
  if gtb y 0 then Infinite s
  else if gtb 0 y then Infinite (negb s)
  else NaN.

Definition mulNum (a b : JsNumber) : JsNumber :=
  match a, b with
  | NaN, _ | _, NaN => NaN
  | Finite x, Finite y => Finite (x * y)
  | Infinite s, Finite y => scaleInf s y
  | Finite x, Infinite s => scaleInf s x
  | Infinite s, Infinite s' => Infinite (Bool.eqb s s')
  end.

(** [n > 0] *)
Definition positiveNum (n : JsNumber) : bool :=
  match n with
  | Finite x => gtb x 0
  | Infinite s => s
  | NaN => false
  end.

(** The value [calculatePnL()] returns: the recomputed pnl for a FILLED
    trade with a positive executed price, the stored pnl otherwise. *)
Definition calculatePnL (t : Trade) : JsNumber :=
  if Status_eqb (status t) FILLED && positiveNum (executedPrice t) then
    let multiplier : Q := if String.eqb (side t) "BUY" then 1 else -1 in
    subNum (mulNum (mulNum (subNum (executedPrice t) (price t)) (quantity t))
                   (Finite multiplier))
           (Finite (fees t))
  else Finite (pnl t).

End TradePnL.

(** ** models/TradingConfig.js: [getCoinConfig];
       controllers/tradingController.js: [updateCoinConfig] *)

Module CoinConfigs.

Record CoinConfig := mkCoin {
  symbol : string;
  enabled : bool;
  maxPositionSize : Q;
  stopLossPercentage : Q;
  takeProfitPercentage : Q;
  customRules : string
}.

Definition isFor (sym : string) (c : CoinConfig) : bool := String.eqb (symbol c) sym.

Definition getCoinConfig (sym : string) (coinConfigs : list CoinConfig) : CoinConfig :=
  match find (isFor sym) coinConfigs with
  | Some c => c
  | None => mkCoin sym true (5 # 100) (2 # 100) (4 # 100) ""
  end.

(** The body of the request; [None] is a field that is not sent. *)
Record CoinUpdate := mkUpdate {
  u_enabled : option bool;
  u_maxPositionSize : option Q;
  u_stopLossPercentage : option Q;
  u_takeProfitPercentage : option Q;
  u_customRules : option string
}.

(** [v || d] on a number that may be missing. *)
Definition numberOr (v : option Q) (d : Q) : Q :=
  match v with
  | Some q => if Js.truthy q then q else d
  | None => d
  end.

Definition valueOr {A} (v : option A) (d : A) : A :=
  match v with
  | Some a => a
  | None => d
  end.

Definition stringOr (v : option string) (d : string) : string :=
  if Js.truthyStr v then valueOr v d else d.

(** The change the handler makes to [config.coinConfigs] in memory, before
    it saves. *)
Definition applyCoinUpdate (sym : string) (u : CoinUpdate)
    (coinConfigs : list CoinConfig) : list CoinConfig :=
  if existsb (isFor sym) coinConfigs then
    TradingService.updateFirst (isFor sym)
      (fun c => mkCoin (symbol c)
                       (valueOr (u_enabled u) (enabled c))
                       (valueOr (u_maxPositionSize u) (maxPositionSize c))
                       (valueOr (u_stopLossPercentage u) (stopLossPercentage c))
                       (valueOr (u_takeProfitPercentage u) (takeProfitPercentage c))
                       (valueOr (u_customRules u) (customRules c)))
      coinConfigs
  else
    coinConfigs ++
    [mkCoin sym
            (valueOr (u_enabled u) true)
            (numberOr (u_maxPositionSize u) (5 # 100))
            (numberOr (u_stopLossPercentage u) (2 # 100))
            (numberOr (u_takeProfitPercentage u) (4 # 100))
            (stringOr (u_customRules u) "")].

(** The schema's validators on a coin entry: [symbol] is [required] (for a
    string: not empty) and [maxPositionSize] has [min: 0.01] and [max: 0.2];
    the other fields of an entry carry none. *)
Definition validCoin (c : CoinConfig) : bool :=
  negb (String.eqb (symbol c) "") &&
  (Js.geb (maxPositionSize c) (1 # 100) && Js.leb (maxPositionSize c) (2 # 10)).

(** [PUT /api/trading/coins/:symbol] on an existing configuration: the
    change, then [config.save()], which validates the document.  [None] is
    the answer 500 with nothing stored; [otherPathsValid] says whether the
    validators of the paths outside [coinConfigs] accept the document. *)
Definition updateCoinConfig (otherPathsValid : bool) (sym : string) (u : CoinUpdate)
    (coinConfigs : list CoinConfig) : option (list CoinConfig) :=
  let updated := applyCoinUpdate sym u coinConfigs in
  if otherPathsValid && forallb validCoin updated then Some updated else None.

End CoinConfigs.

(** ** controllers/tradingController.js: start, stop, configuration *)

Module TradingRoutes.
Import TradingConfig.

Inductive Response := Ok200 | BadRequest400.

(** [POST /api/trading/start]; [hasKeys] says whether the user has both
    API keys. *)
Definition startTrading (hasKeys : bool) (clk : Clock) (c : t) : Response * t :=
  if negb hasKeys then (BadRequest400, c)
  else if negb (isTradingAllowed clk c) then (BadRequest400, c)
  else (Ok200,
        mk (dailyLossLimit c) (capitalConservationMode c) (tradingHours c)
           (dailyStats c) false "" true).

(** [POST /api/trading/stop] *)
Definition stopTrading (reason : option string) (c : t) : t :=
  mk (dailyLossLimit c) (capitalConservationMode c) (tradingHours c)
     (dailyStats c) true
     (if Js.truthyStr reason
      then match reason with Some r => r | None => EmptyString end
      else "Manual stop by user")
     false.

(** [PUT /api/trading/config], for the two fields of the body that the
    record here holds. *)
Definition updateTradingConfig (limit : option Q) (hours : option TradingHours)
    (c : t) : t :=
  mk (match limit with Some l => l | None => dailyLossLimit c end)
     (capitalConservationMode c)
     (match hours with Some h => h | None => tradingHours c end)
     (dailyStats c) (emergencyStop c) (emergencyStopReason c) (isActive c).

(** The operations that write a configuration. *)
Inductive Request :=
| Start (hasKeys : bool)
| Stop (reason : option string)
| Emergency (reason : option string)
| ResetDaily
| Update (limit : option Q) (hours : option TradingHours)
| Fill (pnl : Q) (isWin : bool).

Definition handle (clk : Clock) (r : Request) (c : t) : t :=
  match r with
  | Start hasKeys => snd (startTrading hasKeys clk c)
  | Stop reason => stopTrading reason c
  | Emergency reason => TradingController.emergencyStop reason c
  | ResetDaily => TradingController.resetDailyStats clk c
  | Update limit hours => updateTradingConfig limit hours c
  | Fill pnl isWin => updateDailyPnL pnl isWin c
  end.

(** Requests served one after the other, each at its own time. *)
Definition serve (reqs : list (Clock * Request)) (c : t) : t :=
  fold_left (fun acc cr => handle (fst cr) (snd cr) acc) reqs c.

(** A run of fills, oldest first. *)
Definition updateDailyPnLs (fills : list (Q * bool)) (c : t) : t :=
  fold_left (fun acc f => updateDailyPnL (fst f) (snd f) acc) fills c.

End TradingRoutes.

(** ** services/tradingService.js: [processAISignal], and reading the
       collections back *)

Module Engine.
Import Model TradingService.

(** [User.findById] *)
Definition findUser (uid : nat) (w : World) : option User :=
  find (fun u => (_id u =? uid)%nat) (users w).

(** Trade ids are the positions in the collection, as [create] assigns
    them. *)
Definition idsArePositions (ts : list Trade) : Prop :=
  forall i t, nth_error ts i = Some t -> tradeId t = i.

(** Webhook requests served one after the other, each with the user
    document the controller loaded for it. *)
Definition processWebhookSignals (env : Env) (reqs : list (User * RawSignal))
    (w : World) : World :=
  fold_left (fun acc ur => snd (processWebhookSignal env (fst ur) (snd ur) acc)) reqs w.

Record StrategyDoc := mkDoc {
  d_userId : nat;
  d_strategyName : string;
  d_state : Strategy.t
}.

Record AISignal := mkAI {
  a_strategy : string;
  a_signal : Signal
}.

Inductive AIError :=
| StrategyNotEnabled (name : string)   (* 'AI strategy ... is not enabled' *)
| ConfidenceTooLow                     (* 'Strategy confidence too low' *)
| ExecutionFailed (e : Error).

Definition isDoc (uid : nat) (name : string) (d : StrategyDoc) : bool :=
  (d_userId d =? uid)%nat && String.eqb (d_strategyName d) name.

(** [user.aiStrategies] is read as a map from strategy names to flags:
    [aiStrategies name] is true when the key is there with a truthy value.
    The Strategy collection is threaded beside the world. *)
Definition processAISignal (env : Env) (aiStrategies : string -> bool)
    (user : User) (aiSignal : AISignal) (strategies : list StrategyDoc)
    (w : World) : (AIError + Trade) * list StrategyDoc * World :=
  if negb (aiStrategies (a_strategy aiSignal))
  then (inl (StrategyNotEnabled (a_strategy aiSignal)), strategies, w)
  else
    let found := find (isDoc (_id user) (a_strategy aiSignal)) strategies in
    let strategy :=
      match found with
      | Some d => d
      | None => mkDoc (_id user) (a_strategy aiSignal) (Strategy.fresh 50)
      end in
    let strategies1 :=
      match found with
      | Some _ => strategies
      | None => strategies ++ [strategy]
      end in
    if gtb 30 (Strategy.confidenceScore (d_state strategy))
    then (inl ConfidenceTooLow, strategies1, w)
    else
      match executeTrade env user (a_signal aiSignal) w with
      | (Thrown e, w') => (inl (ExecutionFailed e), strategies1, w')
      | (Returned trade, w') =>
          let updated :=
            mkDoc (d_userId strategy) (d_strategyName strategy)
                  (Strategy.updatePerformance (pnl trade) (d_state strategy)) in
          (inr trade,
           updateFirst (isDoc (_id user) (a_strategy aiSignal))
                       (fun _ => updated) strategies1,
           w')
      end.

(** The confidence a strategy is stored with, 50 when it has no document
    yet (what the next [processAISignal] starts from). *)
Definition storedConfidence (uid : nat) (name : string)
    (strategies : list StrategyDoc) : Q :=
  match find (isDoc uid name) strategies with
  | Some d => Strategy.confidenceScore (d_state d)
  | None => 50
  end.

End Engine.

(** ** The report's metrics: the loops of [calculateAdvancedMetrics] *)

Module Metrics.

(** The variables of the max-drawdown loop. *)
Record Drawdown := mkDrawdown {
  peak : Q;
  maxDrawdown : Q;
  runningPnL : Q
}.

Definition drawdownStep (st : Drawdown) (pnl : Q) : Drawdown :=
  let running := runningPnL st + pnl in
  let pk := if Js.gtb running (peak st) then running else peak st in
  let drawdown := pk - running in
  mkDrawdown pk
             (if Js.gtb drawdown (maxDrawdown st) then drawdown else maxDrawdown st)
             running.

Definition drawdownLoop (pnls : list Q) : Drawdown :=
  fold_left drawdownStep pnls (mkDrawdown 0 0 0).

(** The variables of the streak loop. *)
Record Streaks := mkStreaks {
  maxConsecutiveWins : nat;
  maxConsecutiveLosses : nat;
  currentWinStreak : nat;
  currentLossStreak : nat
}.

Definition streakStep (st : Streaks) (pnl : Q) : Streaks :=
  if Js.gtb pnl 0 then
    mkStreaks (Nat.max (maxConsecutiveWins st) (S (currentWinStreak st)))
              (maxConsecutiveLosses st)
              (S (currentWinStreak st)) 0
  else if Js.gtb 0 pnl then
    mkStreaks (maxConsecutiveWins st)
              (Nat.max (maxConsecutiveLosses st) (S (currentLossStreak st)))
              0 (S (currentLossStreak st))
  else st.

Definition streakLoop (pnls : list Q) : Streaks :=
  fold_left streakStep pnls (mkStreaks 0 0 0 0).

Definition sum (l : list Q) : Q := fold_left Qplus l 0.

(** [winningPnL / losingPnL], or 0 when nothing was lost. *)
Definition profitFactor (pnls : list Q) : Q :=
  let winningPnL := sum (filter (fun p => Js.gtb p 0) pnls) in
  let losingPnL := Qabs (sum (filter (fun p => Js.gtb 0 p) pnls)) in
  if Js.gtb losingPnL 0 then winningPnL / losingPnL else 0.

(** [Math.round(x * 100) / 100] *)
Definition round2 (x : Q) : Q := Js.floor (x * 100 + (1 # 2)) / 100.

End Metrics.

(** ** services/tradingService.js: JSON bodies whose fields are not text *)

Module WebhookBody.
Import Js Model TradingService.








End WebhookBody.

(** * Properties *)

(** ** Number comparisons *)

Section JsFacts.
Import Js.

Lemma gtb_true a b : gtb a b = true <-> b < a.
Proof.
  unfold gtb. rewrite negb_true_iff.
  split; intro H.
  - apply Qnot_le_lt. intro Hle. apply Qle_bool_iff in Hle. congruence.
  - destruct (Qle_bool a b) eqn:E; [|reflexivity].
    apply Qle_bool_iff in E. exfalso. apply (Qlt_not_le _ _ H E).
Qed.

Lemma geb_true a b : geb a b = true <-> b <= a.
Proof. unfold geb. apply Qle_bool_iff. Qed.

Lemma geb_false a b : geb a b = false <-> a < b.
Proof.
  unfold geb. split; intro H.
  - apply Qnot_le_lt. intro Hle. apply Qle_bool_iff in Hle. congruence.
  - destruct (Qle_bool b a) eqn:E; [|reflexivity].
    apply Qle_bool_iff in E. exfalso. apply (Qlt_not_le _ _ H E).
Qed.

Lemma leb_true a b : leb a b = true <-> a <= b.
Proof. unfold leb. apply Qle_bool_iff. Qed.

Lemma leb_false a b : leb a b = false <-> b < a.
Proof. unfold leb. apply (geb_false b a). Qed.

Lemma truthy_true a : truthy a = true <-> ~ a == 0.
Proof.
  unfold truthy. rewrite negb_true_iff. split; intro H.
  - intro E. apply Qeq_bool_iff in E. congruence.
  - destruct (Qeq_bool a 0) eqn:E; [|reflexivity].
    apply Qeq_bool_iff in E. contradiction.
Qed.

End JsFacts.

(** ** Confidence learning *)

Section StrategyFacts.
Import Strategy.

Lemma confidence_set s c : confidenceScore (set_confidence s c) = c.
Proof. reflexivity. Qed.

Lemma streak_set s c : consecutiveLosses (set_confidence s c) = consecutiveLosses s.
Proof. reflexivity. Qed.

Lemma win_step_in_band c : in_band c ->
  in_band (Qmin maxConfidence (c + learningRate * (100 - c))).
Proof.
  unfold in_band, maxConfidence, learningRate. intros [Hlo Hhi].
  split.
  - apply Q.min_glb; lra.
  - apply Q.le_min_l.
Qed.

Lemma loss_step_in_band c : in_band c ->
  in_band (Qmax minConfidence (c - learningRate * c)).
Proof.
  unfold in_band, minConfidence, learningRate. intros [Hlo Hhi].
  split.
  - apply Q.le_max_l.
  - apply Q.max_lub; lra.
Qed.

Lemma penalty_in_band c : in_band c ->
  in_band (Qmax minConfidence (c * (8 # 10))).
Proof.
  unfold in_band, minConfidence. intros [Hlo Hhi].
  split.
  - apply Q.le_max_l.
  - apply Q.max_lub; lra.
Qed.

Lemma updateConfidenceScore_in_band isWin s :
  in_band (confidenceScore s) ->
  in_band (confidenceScore (updateConfidenceScore isWin s)).
Proof.
  intro H. unfold updateConfidenceScore. rewrite confidence_set.
  assert (H1 : in_band (if isWin
                        then Qmin maxConfidence
                               (confidenceScore s + learningRate * (100 - confidenceScore s))
                        else Qmax minConfidence
                               (confidenceScore s - learningRate * confidenceScore s))).
  { destruct isWin; [apply win_step_in_band | apply loss_step_in_band]; exact H. }
  destruct (3 <=? consecutiveLosses s)%nat.
  - apply penalty_in_band. exact H1.
  - exact H1.
Qed.

Lemma updatePerformance_in_band pnl s :
  in_band (confidenceScore s) ->
  in_band (confidenceScore (updatePerformance pnl s)).
Proof.
  intro H. unfold updatePerformance.
  apply updateConfidenceScore_in_band. exact H.
Qed.

End StrategyFacts.

Section ConfidenceRuns.
Import Strategy.

Lemma updateConfidenceScores_in_band wins : forall s,
  in_band (confidenceScore s) ->
  in_band (confidenceScore (updateConfidenceScores wins s)).
Proof.
  induction wins as [|w wins IH]; intros s H; simpl.
  - exact H.
  - apply IH. apply updateConfidenceScore_in_band. exact H.
Qed.

Lemma updatePerformances_in_band pnls : forall s,
  in_band (confidenceScore s) ->
  in_band (confidenceScore (updatePerformances pnls s)).
Proof.
  induction pnls as [|p pnls IH]; intros s H; simpl.
  - exact H.
  - apply IH. apply updatePerformance_in_band. exact H.
Qed.

(** C4. Starting from a confidence score in [5, 95], the score is in
    [5, 95] after every update of any finite run: after each prefix of a
    run of [updatePerformance] calls (wins and losses decided by the trades'
    pnl, the streak kept by the method itself), and after each prefix of a
    run of direct [updateConfidenceScore] calls, whatever the streak that
    triggers the extra penalty. *)
Theorem confidence_stays_in_band (s : Strategy.t)
    (H : in_band (confidenceScore s)) :
  (forall (pnls : list Q) (k : nat),
      in_band (confidenceScore (updatePerformances (firstn k pnls) s))) /\
  (forall (wins : list bool) (k : nat),
      in_band (confidenceScore (updateConfidenceScores (firstn k wins) s))).
Proof.
  split; intros l k.
  - apply updatePerformances_in_band. exact H.
  - apply updateConfidenceScores_in_band. exact H.
Qed.

Lemma confidence_stays_in_band_witness :
  in_band (confidenceScore (fresh 50)) /\
  in_band (confidenceScore
             (updatePerformances (firstn 5 [-10; -10; -10; -10; 25; -3]) (fresh 50))) /\
  in_band (confidenceScore
             (updateConfidenceScores (firstn 2 [true; false; false])
                (mk 7 3 4 0 0 0 95 4))).
Proof.
  assert (H50 : in_band (confidenceScore (fresh 50))).
  { unfold in_band; simpl; split; lra. }
  assert (H95 : in_band (confidenceScore (mk 7 3 4 0 0 0 95 4))).
  { unfold in_band; simpl; split; lra. }
  split; [exact H50|]. split.
  - exact (proj1 (confidence_stays_in_band (fresh 50) H50)
             [-10; -10; -10; -10; 25; -3] 5%nat).
  - exact (proj2 (confidence_stays_in_band (mk 7 3 4 0 0 0 95 4) H95)
             [true; false; false] 2%nat).
Defined.

(** C5. With fewer than three losses in a row on record, a win moves the
    score c to c + 0.1 * (100 - c) and a loss to c - 0.1 * c, the value then
    clamped at 95 from above (win) or at 5 from below (loss), and no penalty
    is applied.  Scenario C: from 50 one winning trade gives 55, and one
    losing trade from there gives 49.5. *)
Theorem confidence_update_formula (s : Strategy.t)
    (H : (consecutiveLosses s < 3)%nat) :
  confidenceScore (updateConfidenceScore true s)
    = Qmin 95 (confidenceScore s + (1 # 10) * (100 - confidenceScore s)) /\
  confidenceScore (updateConfidenceScore false s)
    = Qmax 5 (confidenceScore s - (1 # 10) * confidenceScore s) /\
  confidenceScore (updatePerformance 20 (fresh 50)) == 55 /\
  confidenceScore (updatePerformance (-20) (updatePerformance 20 (fresh 50)))
    == 99 # 2.
Proof.
  assert (E : (3 <=? consecutiveLosses s)%nat = false).
  { apply Nat.leb_gt. exact H. }
  split; [|split; [|split]].
  - unfold updateConfidenceScore. rewrite E. reflexivity.
  - unfold updateConfidenceScore. rewrite E. reflexivity.
  - vm_compute. reflexivity.
  - vm_compute. reflexivity.
Qed.

Lemma confidence_update_formula_witness :
  (consecutiveLosses (set_confidence (fresh 50) 55) < 3)%nat /\
  confidenceScore (updateConfidenceScore true (fresh 50)) == 55 /\
  confidenceScore (updateConfidenceScore false (set_confidence (fresh 50) 55))
    == 99 # 2.
Proof.
  assert (H0 : (consecutiveLosses (fresh 50) < 3)%nat) by (simpl; lia).
  assert (H1 : (consecutiveLosses (set_confidence (fresh 50) 55) < 3)%nat)
    by (simpl; lia).
  split; [exact H1|]. split.
  - rewrite (proj1 (confidence_update_formula (fresh 50) H0)).
    vm_compute. reflexivity.
  - rewrite (proj1 (proj2 (confidence_update_formula _ H1))).
    vm_compute. reflexivity.
Defined.

End ConfidenceRuns.

(** ** Daily statistics and the loss-limit breaker *)

Section Breaker.
Import TradingConfig.

(** C2. [updateDailyPnL] adds the trade's pnl to the day's pnl, and when
    the absolute value of the new total reaches the loss limit it sets the
    emergency stop, the reason "Daily loss limit reached" and the capital
    conservation mode.  Scenario A: limit 1000, day at -950, a fill with
    pnl -100 leaves the day at -1050 with the three fields set. *)
Theorem updateDailyPnL_trips_breaker :
  (forall (c : TradingConfig.t) (pnl : Q) (isWin : bool),
      currentPnL (dailyStats (updateDailyPnL pnl isWin c))
        = currentPnL (dailyStats c) + pnl /\
      (dailyLossLimit c <= Qabs (currentPnL (dailyStats c) + pnl) ->
         emergencyStop (updateDailyPnL pnl isWin c) = true /\
         emergencyStopReason (updateDailyPnL pnl isWin c)
           = "Daily loss limit reached"%string /\
         capitalConservationMode (updateDailyPnL pnl isWin c) = true)) /\
  (let c' := updateDailyPnL (-100) false Scenario.configA in
   currentPnL (dailyStats c') == -1050 /\
   emergencyStop c' = true /\
   emergencyStopReason c' = "Daily loss limit reached"%string /\
   capitalConservationMode c' = true).
Proof.
  split.
  - intros c pnl isWin. unfold updateDailyPnL.
    split.
    + destruct (Js.geb _ _); reflexivity.
    + intro Hcap. apply geb_true in Hcap. rewrite Hcap. simpl. auto.
  - vm_compute. repeat split; reflexivity.
Qed.

Lemma updateDailyPnL_trips_breaker_witness :
  dailyLossLimit Scenario.configA
    <= Qabs (currentPnL (dailyStats Scenario.configA) + (-100)) /\
  emergencyStop (updateDailyPnL (-100) false Scenario.configA) = true /\
  emergencyStopReason (updateDailyPnL (-100) false Scenario.configA)
    = "Daily loss limit reached"%string /\
  capitalConservationMode (updateDailyPnL (-100) false Scenario.configA) = true.
Proof.
  assert (Hcap : dailyLossLimit Scenario.configA
                 <= Qabs (currentPnL (dailyStats Scenario.configA) + (-100))).
  { vm_compute. discriminate. }
  split; [exact Hcap|].
  exact (proj2 (proj1 updateDailyPnL_trips_breaker Scenario.configA (-100) false) Hcap).
Defined.

(** The stop raised by the loss limit is what the daily reset route lifts;
    the stop raised by the emergency route blocks [isTradingAllowed] and
    survives that reset unless its reason is the loss-limit one. *)
Lemma reset_lifts_loss_limit_stop clk :
  emergencyStop (TradingController.resetDailyStats clk Scenario.stoppedConfig) = false /\
  currentPnL (dailyStats (TradingController.resetDailyStats clk Scenario.stoppedConfig)) == 0.
Proof. split; reflexivity. Qed.

Lemma emergency_route_blocks clk reason c :
  isTradingAllowed clk (TradingController.emergencyStop reason c) = false.
Proof. reflexivity. Qed.

End Breaker.

(** ** Symbol normalisation *)

Section SymbolFacts.
Import Js TradingService.
Local Open Scope string_scope.

Lemma includes_cons p c s :
  includes p (String c s) = startsWith p (String c s) || includes p s.
Proof. reflexivity. Qed.

Lemma replace_cons p r c s :
  replace p r (String c s)
  = if startsWith p (String c s)
    then r ++ drop (String.length p) (String c s)
    else String c (replace p r s).
Proof. reflexivity. Qed.

Lemma replace_without_occurrence p r : forall s,
  includes p s = false -> replace p r s = s.
Proof.
  induction s as [|c s IH]; intro H.
  - simpl in *. rewrite orb_false_r in H. rewrite H. reflexivity.
  - rewrite includes_cons in H. apply orb_false_iff in H as [H1 H2].
    rewrite replace_cons, H1, IH by exact H2. reflexivity.
Qed.

Lemma startsWith_drop_length p : forall s,
  startsWith p s = true ->
  (String.length (drop (String.length p) s) + String.length p = String.length s)%nat.
Proof.
  induction p as [|a p IH]; intros s H.
  - simpl. lia.
  - destruct s as [|b s]; simpl in H; [discriminate|].
    apply andb_true_iff in H as [_ H]. simpl.
    specialize (IH s H). lia.
Qed.

Lemma replace_removes_occurrence p : forall s,
  includes p s = true ->
  (String.length (replace p "" s) + String.length p = String.length s)%nat.
Proof.
  induction s as [|c s IH]; intro H.
  - simpl in H. rewrite orb_false_r in H.
    simpl. rewrite H. simpl. apply (startsWith_drop_length p "" H).
  - rewrite replace_cons. rewrite includes_cons in H.
    destruct (startsWith p (String c s)) eqn:E.
    + simpl append. apply startsWith_drop_length. exact E.
    + simpl in H. specialize (IH H). simpl. lia.
Qed.

Lemma startsWith_USDT_before_suffix b :
  b <> "" ->
  startsWith "USDT" (b ++ "USDT") = startsWith "USDT" b.
Proof.
  intro Hb.
  destruct b as [|c1 [|c2 [|c3 [|c4 b]]]]; [congruence| | | |]; simpl.
  - rewrite andb_false_r. reflexivity.
  - rewrite !andb_false_r. reflexivity.
  - rewrite !andb_false_r. reflexivity.
  - reflexivity.
Qed.

Lemma normalizeSymbol_strips_suffix : forall b,
  includes "USDT" b = false -> normalizeSymbol (b ++ "USDT") = b.
Proof.
  unfold normalizeSymbol.
  induction b as [|c b IH]; intro H.
  - reflexivity.
  - rewrite includes_cons in H. apply orb_false_iff in H as [H1 H2].
    change (String c b ++ "USDT") with (String c (b ++ "USDT")).
    rewrite replace_cons.
    change (String c (b ++ "USDT")) with (String c b ++ "USDT").
    rewrite startsWith_USDT_before_suffix by discriminate.
    rewrite H1, IH by exact H2. reflexivity.
Qed.

(** C6 (as the code has it). [normalizeSymbol] removes the first
    occurrence of "USDT" wherever it stands.  A symbol without "USDT" passes
    through unchanged; a symbol made of a "USDT"-free base followed by
    "USDT" is mapped to its base; and applying the normalisation twice gives
    the same as once exactly when the result of the first application holds
    no further "USDT". *)
Theorem normalizeSymbol_idempotent_iff :
  (forall s, includes "USDT" s = false -> normalizeSymbol s = s) /\
  (forall b, includes "USDT" b = false ->
     normalizeSymbol (b ++ "USDT") = b /\
     normalizeSymbol (normalizeSymbol (b ++ "USDT")) = normalizeSymbol (b ++ "USDT")) /\
  (forall s, normalizeSymbol (normalizeSymbol s) = normalizeSymbol s
             <-> includes "USDT" (normalizeSymbol s) = false).
Proof.
  split; [|split].
  - intros s H. apply replace_without_occurrence. exact H.
  - intros b H. split.
    + apply normalizeSymbol_strips_suffix. exact H.
    + rewrite (normalizeSymbol_strips_suffix b H).
      apply replace_without_occurrence. exact H.
  - intro s. split; intro H.
    + destruct (includes "USDT" (normalizeSymbol s)) eqn:E; [|reflexivity].
      apply (replace_removes_occurrence "USDT") in E.
      unfold normalizeSymbol in H at 1. rewrite H in E. simpl in E. lia.
    + apply replace_without_occurrence. exact H.
Qed.

Lemma normalizeSymbol_idempotent_iff_witness :
  includes "USDT" "BTC" = false /\
  normalizeSymbol "BTCUSDT" = "BTC" /\
  normalizeSymbol (normalizeSymbol "BTCUSDT") = normalizeSymbol "BTCUSDT".
Proof.
  assert (H : includes "USDT" "BTC" = false) by reflexivity.
  split; [exact H|].
  exact (proj1 (proj2 normalizeSymbol_idempotent_iff) "BTC" H).
Defined.

(** C6, the claim as stated fails: a doubled suffix loses one "USDT" at
    each application, and a leading "USDT" is removed as well. *)
Lemma normalizeSymbol_not_idempotent :
  normalizeSymbol "BTCUSDTUSDT" = "BTCUSDT" /\
  normalizeSymbol (normalizeSymbol "BTCUSDTUSDT") = "BTC" /\
  normalizeSymbol (normalizeSymbol "BTCUSDTUSDT") <> normalizeSymbol "BTCUSDTUSDT" /\
  normalizeSymbol "USDTBTC" = "BTC".
Proof.
  split; [reflexivity|]. split; [reflexivity|]. split; [|reflexivity].
  vm_compute. discriminate.
Qed.

End SymbolFacts.

(** ** Execution *)

Section ExecutionFacts.
Import Model TradingService.

(** The price step never throws, leaves both collections alone, and asks
    the exchange exactly when the signal carries no usable price. *)
Lemma resolvePrice_returns env sg w :
  exists p w1,
    resolvePrice env sg w = (Returned p, w1) /\
    trades w1 = trades w /\ users w1 = users w /\
    calls w1 = calls w ++
               (if truthyNum (s_price sg) then []
                else [PriceRequest (pairOf (s_symbol sg))]) /\
    (truthyNum (s_price sg) = true -> s_price sg = Some p) /\
    (truthyNum (s_price sg) = false ->
       p = match ticker env (pairOf (s_symbol sg)) with
           | MarkPrice m => m
           | RequestFails => Finite 50000
           end).
Proof.
  unfold resolvePrice.
  assert (G : exists p w1,
             getCurrentPrice env (s_symbol sg) w = (Returned p, w1) /\
             trades w1 = trades w /\ users w1 = users w /\
             calls w1 = calls w ++ [PriceRequest (pairOf (s_symbol sg))] /\
             p = match ticker env (pairOf (s_symbol sg)) with
                 | MarkPrice m => m
                 | RequestFails => Finite 50000
                 end).
  { unfold getCurrentPrice, bind, request, modify, ret.
    destruct (ticker env (pairOf (s_symbol sg))); eauto 10. }
  destruct (s_price sg) as [p0|] eqn:Ep.
  - destruct (truthyNum (Some p0)) eqn:Et.
    + exists p0, w. unfold ret. rewrite app_nil_r.
      repeat split; auto. intro; discriminate.
    + destruct G as (p & w1 & E & Ht & Hu & Hc & Hp).
      exists p, w1. repeat split; auto. intro; discriminate.
  - destruct G as (p & w1 & E & Ht & Hu & Hc & Hp).
    exists p, w1. simpl. repeat split; auto. intro; discriminate.
Qed.

Lemma create_accepts env uid sym sd ty qty prc paper w :
  validSide sd = true -> validType ty = true ->
  isNaN qty = false -> isNaN prc = false ->
  exists t,
    create env uid sym sd ty qty prc paper w
    = (Returned t, mkWorld (trades w ++ [t]) (users w) (calls w)) /\
    quantity t = qty /\ price t = prc /\ status t = PENDING /\
    sd = Some (side t) /\ type t = ty /\ symbol t = sym /\ userId t = uid /\
    paperTrade t = paper.
Proof.
  intros Hs Ht Hq Hp. unfold create. rewrite Hs, Ht, Hq, Hp. simpl.
  unfold bind, gets, modify, ret.
  eexists. split; [reflexivity|]. simpl.
  destruct sd as [v|]; [|discriminate]. repeat split; reflexivity.
Qed.

Lemma create_outcome env uid sym sd ty qty prc paper w :
  (exists t,
      create env uid sym sd ty qty prc paper w
      = (Returned t, mkWorld (trades w ++ [t]) (users w) (calls w)) /\
      quantity t = qty /\ price t = prc /\ status t = PENDING) \/
  create env uid sym sd ty qty prc paper w = (Thrown TradeValidationFailed, w).
Proof.
  unfold create.
  destruct (validSide sd && validType ty && negb (isNaN qty) && negb (isNaN prc)).
  - left. unfold bind, gets, modify, ret. eexists. split; [reflexivity|].
    repeat split; reflexivity.
  - right. reflexivity.
Qed.

(** What [executeTrade] hands back, whenever it hands back a trade. *)
Lemma executeTrade_returned env user sg w t w' :
  executeTrade env user sg w = (Returned t, w') ->
  exists p w1,
    resolvePrice env sg w = (Returned p, w1) /\
    price t = p /\
    quantity t = orNumber (s_quantity sg) (calculatePositionSize user p) /\
    (status t = FILLED /\ executedPrice t = p /\ calls w' = calls w1 \/
     status t = PENDING /\ negb (paperTradingMode user) && deltaConnected user = true).
Proof.
  intro H.
  destruct (resolvePrice_returns env sg w) as (p & w1 & E & _).
  exists p, w1. split; [exact E|].
  unfold executeTrade, bind in H. rewrite E in H.
  destruct (create_outcome env (_id user) (pairOf (s_symbol sg)) (s_side sg)
              (typeOrMarket sg)
              (orNumber (s_quantity sg) (calculatePositionSize user p))
              p (paperTradingMode user) w1)
    as [(t0 & Ec & Hq & Hp & Hst) | Ec]; rewrite Ec in H; [|discriminate].
  destruct (negb (paperTradingMode user) && deltaConnected user) eqn:Emode.
  - unfold tryCatch, bind, executeDeltaOrder in H.
    destruct (truthyStr (deltaApiKey user) && truthyStr (deltaApiSecret user)).
    + unfold request, modify, bind, throw, ret, save in H. simpl in H.
      destruct (placeOrder env t0); simpl in H; [|discriminate].
      injection H as Et Ew. rewrite <- Et. simpl. auto.
    + unfold throw, save, modify, bind in H. simpl in H. discriminate.
  - unfold save, modify, bind, ret in H. simpl in H.
    injection H as Et Ew. rewrite <- Et, <- Ew. simpl. auto 10.
Qed.

(** In simulated mode a document the schema accepts is filled at once. *)
Lemma executeTrade_simulated env user sg w p w1 :
  negb (paperTradingMode user) && deltaConnected user = false ->
  resolvePrice env sg w = (Returned p, w1) ->
  validSide (s_side sg) = true ->
  validType (typeOrMarket sg) = true ->
  isNaN p = false ->
  isNaN (orNumber (s_quantity sg) (calculatePositionSize user p)) = false ->
  exists t w',
    executeTrade env user sg w = (Returned t, w') /\
    status t = FILLED /\ price t = p /\ executedPrice t = p /\
    quantity t = orNumber (s_quantity sg) (calculatePositionSize user p) /\
    s_side sg = Some (side t) /\
    calls w' = calls w1.
Proof.
  intros Hmode E Hs Ht Hp Hq.
  unfold executeTrade, bind. rewrite E.
  destruct (create_accepts env (_id user) (pairOf (s_symbol sg)) (s_side sg)
              (typeOrMarket sg)
              (orNumber (s_quantity sg) (calculatePositionSize user p))
              p (paperTradingMode user) w1 Hs Ht Hq Hp)
    as (t0 & Ec & Hq0 & Hp0 & Hst & Hsd & _).
  rewrite Ec, Hmode.
  unfold save, modify, bind, ret. simpl.
  eexists. eexists. split; [reflexivity|]. simpl.
  repeat split; auto.
Qed.

Lemma executeTrade_throws env user sg w e w' :
  executeTrade env user sg w = (Thrown e, w') ->
  e = TradeValidationFailed \/ e = DeltaOrderFailed.
Proof.
  intro H.
  destruct (resolvePrice_returns env sg w) as (p & w1 & E & _).
  unfold executeTrade, bind in H. rewrite E in H.
  destruct (create_outcome env (_id user) (pairOf (s_symbol sg)) (s_side sg)
              (typeOrMarket sg)
              (orNumber (s_quantity sg) (calculatePositionSize user p))
              p (paperTradingMode user) w1)
    as [(t0 & Ec & _) | Ec]; rewrite Ec in H.
  - destruct (negb (paperTradingMode user) && deltaConnected user).
    + unfold tryCatch, bind, executeDeltaOrder in H.
      destruct (truthyStr (deltaApiKey user) && truthyStr (deltaApiSecret user)).
      * unfold request, modify, bind, throw, ret, save in H. simpl in H.
        destruct (placeOrder env t0); simpl in H; inversion H; auto.
      * unfold throw, save, modify, bind in H. simpl in H. inversion H; auto.
    + unfold save, modify, bind, ret in H. simpl in H. discriminate.
  - inversion H; auto.
Qed.

Lemma orNumber_not_NaN a b : isNaN b = false -> isNaN (orNumber a b) = false.
Proof.
  intro H. unfold orNumber.
  destruct a as [[q|s|]|]; simpl; try exact H; try reflexivity.
  destruct (truthy q); [reflexivity | exact H].
Qed.

Lemma orNumber_truthy q b : truthyNum (Some q) = true -> orNumber (Some q) b = q.
Proof. intro H. unfold orNumber. rewrite H. reflexivity. Qed.

Lemma truthyNum_not_NaN q : truthyNum (Some q) = true -> isNaN q = false.
Proof. destruct q; simpl; intro H; (reflexivity || discriminate). Qed.

End ExecutionFacts.

(** ** Quantity, simulated fills, the fallback price *)

Section ExecutionClaims.
Import Model TradingService.

(** The defect behind C8, for every input: [signal.quantity || positionSize]
    records a provided (non-zero) quantity as it is and consults the sizer's
    value only when the signal provides none, so the limit that
    [maxTradeSizePercent] sets is bypassed by any signal that names a
    quantity. *)
Theorem executeTrade_keeps_provided_quantity :
  forall env user sg w,
    (forall q t w',
        s_quantity sg = Some q -> truthyNum (Some q) = true ->
        executeTrade env user sg w = (Returned t, w') ->
        quantity t = q) /\
    (forall t w',
        truthyNum (s_quantity sg) = false ->
        executeTrade env user sg w = (Returned t, w') ->
        quantity t = calculatePositionSize user (price t)) /\
    (forall q,
        s_quantity sg = Some q -> truthyNum (Some q) = true ->
        negb (paperTradingMode user) && deltaConnected user = false ->
        validSide (s_side sg) = true ->
        validType (typeOrMarket sg) = true ->
        ticker env (pairOf (s_symbol sg)) <> MarkPrice NaN ->
        exists t w',
          executeTrade env user sg w = (Returned t, w') /\ quantity t = q).
Proof.
  intros env user sg w. split; [|split].
  - intros q t w' Hq Ht H.
    destruct (executeTrade_returned _ _ _ _ _ _ H) as (p & w1 & _ & _ & Hqty & _).
    rewrite Hqty, Hq. apply orNumber_truthy. exact Ht.
  - intros t w' Hq H.
    destruct (executeTrade_returned _ _ _ _ _ _ H) as (p & w1 & _ & Hp & Hqty & _).
    rewrite Hqty, Hp. unfold orNumber.
    destruct (s_quantity sg) as [n|]; [|reflexivity].
    rewrite Hq. reflexivity.
  - intros q Hq Ht Hmode Hs Hty Htick.
    destruct (resolvePrice_returns env sg w) as (p & w1 & E & _ & _ & _ & Hp1 & Hp2).
    assert (Hp : isNaN p = false).
    { destruct (truthyNum (s_price sg)) eqn:Etr.
      - specialize (Hp1 eq_refl). rewrite Hp1 in Etr.
        apply truthyNum_not_NaN. exact Etr.
      - specialize (Hp2 eq_refl). rewrite Hp2.
        destruct (ticker env (pairOf (s_symbol sg))) as [|m]; [reflexivity|].
        destruct m; try reflexivity. congruence. }
    assert (Hn : isNaN (orNumber (s_quantity sg) (calculatePositionSize user p)) = false).
    { rewrite Hq, (orNumber_truthy _ _ Ht). apply truthyNum_not_NaN. exact Ht. }
    destruct (executeTrade_simulated env user sg w p w1 Hmode E Hs Hty Hp Hn)
      as (t & w' & Ex & _ & _ & _ & Hqty & _).
    exists t, w'. split; [exact Ex|].
    rewrite Hqty, Hq. apply orNumber_truthy. exact Ht.
Qed.

Lemma executeTrade_keeps_provided_quantity_witness :
  s_quantity Scenario.bigSignal = Some (Finite 1000) /\
  exists t w',
    executeTrade Scenario.deadExchange Scenario.paperUser Scenario.bigSignal
                 Scenario.emptyWorld = (Returned t, w') /\
    quantity t = Finite 1000.
Proof.
  split; [reflexivity|].
  apply (proj2 (proj2 (executeTrade_keeps_provided_quantity
                         Scenario.deadExchange Scenario.paperUser
                         Scenario.bigSignal Scenario.emptyWorld))
           (Finite 1000)).
  - reflexivity.
  - reflexivity.
  - reflexivity.
  - reflexivity.
  - reflexivity.
  - vm_compute. discriminate.
Defined.

(** C8, the code at the failing input. The claim asks that a provided
    quantity be capped at the sizer's bound.  With 5 percent of the 10000
    balance at a price of 50000 the sizer, which is "based on risk settings",
    gives 0.01; a signal asking for 1000 is parsed, admitted, and recorded
    with quantity 1000: the provided quantity bypasses the bound. *)
Lemma provided_quantity_exceeds_sizer_bound :
  parseSignal Scenario.buyBTCBig = Some Scenario.bigSignal /\
  option_map quantity
    (Scenario.returned
       (fst (processWebhookSignal Scenario.deadExchange Scenario.paperUser
               Scenario.buyBTCBig Scenario.emptyWorld)))
  = Some (Finite 1000) /\
  exists bound,
    calculatePositionSize Scenario.paperUser (Finite 50000) = Finite bound /\
    bound == 1 # 100 /\ bound < 1000.
Proof.
  split; [reflexivity|]. split; [reflexivity|].
  eexists. split; [vm_compute; reflexivity|].
  split; reflexivity.
Qed.

(** C9 (as the code has it). For a paper-trading user, a signal whose
    document the schema accepts is filled at once: the trade comes back
    FILLED with the executed price equal to the trade's price, which is the
    signal's own price when it carries one.  No order is sent to the
    exchange; the exchange is asked for a price exactly when the signal
    carries none. *)
Theorem paper_trade_fills_without_order env user sg w p w1
    (Hpaper : paperTradingMode user = true)
    (Hprice : resolvePrice env sg w = (Returned p, w1))
    (Hside : validSide (s_side sg) = true)
    (Htype : validType (typeOrMarket sg) = true)
    (Hp : isNaN p = false)
    (Hq : isNaN (orNumber (s_quantity sg) (calculatePositionSize user p)) = false) :
  exists t w',
    executeTrade env user sg w = (Returned t, w') /\
    status t = FILLED /\
    price t = p /\ executedPrice t = p /\
    (truthyNum (s_price sg) = true -> s_price sg = Some (executedPrice t)) /\
    calls w' = calls w ++
               (if truthyNum (s_price sg) then []
                else [PriceRequest (pairOf (s_symbol sg))]).
Proof.
  assert (Hmode : negb (paperTradingMode user) && deltaConnected user = false).
  { rewrite Hpaper. reflexivity. }
  destruct (executeTrade_simulated env user sg w p w1 Hmode Hprice Hside Htype Hp Hq)
    as (t & w' & Ex & Hst & Hpr & Hex & _ & _ & Hc).
  destruct (resolvePrice_returns env sg w) as (p' & w1' & E & _ & _ & Hc1 & Hp1 & _).
  rewrite Hprice in E. injection E as Ep Ew. subst p' w1'.
  exists t, w'. repeat split; auto.
  - intro Htr. rewrite Hex. apply Hp1. exact Htr.
  - rewrite Hc. exact Hc1.
Qed.

Lemma paper_trade_fills_without_order_witness :
  exists t w',
    executeTrade Scenario.deadExchange Scenario.paperUser Scenario.bigSignal
                 Scenario.emptyWorld = (Returned t, w') /\
    status t = FILLED /\
    price t = Finite 50000 /\ executedPrice t = Finite 50000 /\
    (truthyNum (s_price Scenario.bigSignal) = true ->
     s_price Scenario.bigSignal = Some (executedPrice t)) /\
    calls w' = calls Scenario.emptyWorld ++
               (if truthyNum (s_price Scenario.bigSignal) then []
                else [PriceRequest (pairOf (s_symbol Scenario.bigSignal))]).
Proof.
  apply (paper_trade_fills_without_order
           Scenario.deadExchange Scenario.paperUser Scenario.bigSignal
           Scenario.emptyWorld (Finite 50000) Scenario.emptyWorld).
  - reflexivity.
  - reflexivity.
  - reflexivity.
  - reflexivity.
  - reflexivity.
  - reflexivity.
Defined.

(** C9, the claim as stated fails: a paper trade for a signal without a
    price is filled, but only after one request to the exchange. *)
Lemma paper_trade_asks_exchange_for_price :
  paperTradingMode Scenario.paperUser = true /\
  parseSignal Scenario.buyBTCAtMarket = Some Scenario.marketSignal /\
  option_map status
    (Scenario.returned
       (fst (processWebhookSignal Scenario.deadExchange Scenario.paperUser
               Scenario.buyBTCAtMarket Scenario.emptyWorld)))
  = Some FILLED /\
  calls (snd (processWebhookSignal Scenario.deadExchange Scenario.paperUser
                Scenario.buyBTCAtMarket Scenario.emptyWorld))
  = [PriceRequest "BTCUSDT"].
Proof.
  split; [reflexivity|]. split; [reflexivity|]. split; reflexivity.
Qed.

(** C10. When the price request fails, whatever the symbol,
    [getCurrentPrice] throws nothing and returns 50000; a signal without a
    price is then sized against 50000 and, in simulated mode, filled at
    50000. *)
Theorem price_lookup_failure_defaults_to_50000 env user sg w
    (Hfail : ticker env (pairOf (s_symbol sg)) = RequestFails) :
  (exists w1, getCurrentPrice env (s_symbol sg) w = (Returned (Finite 50000), w1)) /\
  (truthyNum (s_price sg) = false ->
   negb (paperTradingMode user) && deltaConnected user = false ->
   validSide (s_side sg) = true ->
   validType (typeOrMarket sg) = true ->
   exists t w',
     executeTrade env user sg w = (Returned t, w') /\
     status t = FILLED /\
     price t = Finite 50000 /\ executedPrice t = Finite 50000 /\
     quantity t = orNumber (s_quantity sg)
                    (calculatePositionSize user (Finite 50000))).
Proof.
  split.
  - unfold getCurrentPrice, bind, request, modify, ret. rewrite Hfail.
    eexists. reflexivity.
  - intros Hno Hmode Hs Hty.
    destruct (resolvePrice_returns env sg w) as (p & w1 & E & _ & _ & _ & _ & Hp2).
    specialize (Hp2 Hno). rewrite Hfail in Hp2. subst p.
    assert (Hn : isNaN (orNumber (s_quantity sg)
                          (calculatePositionSize user (Finite 50000))) = false).
    { apply orNumber_not_NaN. reflexivity. }
    destruct (executeTrade_simulated env user sg w _ w1 Hmode E Hs Hty eq_refl Hn)
      as (t & w' & Ex & Hst & Hpr & Hex & Hqty & _).
    exists t, w'. repeat split; assumption.
Qed.

Lemma price_lookup_failure_defaults_to_50000_witness :
  ticker Scenario.deadExchange (pairOf (s_symbol Scenario.marketSignal)) = RequestFails /\
  exists t w',
    executeTrade Scenario.deadExchange Scenario.paperUser Scenario.marketSignal
                 Scenario.emptyWorld = (Returned t, w') /\
    status t = FILLED /\
    price t = Finite 50000 /\ executedPrice t = Finite 50000 /\
    quantity t = orNumber (s_quantity Scenario.marketSignal)
                   (calculatePositionSize Scenario.paperUser (Finite 50000)).
Proof.
  split; [reflexivity|].
  apply (proj2 (price_lookup_failure_defaults_to_50000
                  Scenario.deadExchange Scenario.paperUser Scenario.marketSignal
                  Scenario.emptyWorld eq_refl)).
  - reflexivity.
  - reflexivity.
  - reflexivity.
  - reflexivity.
Defined.

End ExecutionClaims.

(** ** Admission *)

Section AdmissionClaims.
Import Model TradingService.

(** The guards before the loss cap, once they all pass, leave the loss-cap
    test and the execution. *)
Lemma processWebhookSignal_after_guards env user raw parsed w :
  parseSignal raw = Some parsed ->
  includesCoin (enabledCoins user) (s_symbol parsed) = true ->
  inject_Z (Z.of_nat (countToday env (_id user) (trades w)))
    < maxTradeCountPerDay (riskSettings user) ->
  (consecutiveLosses user < 3)%nat ->
  processWebhookSignal env user raw w
  = if leb (currentDayPnL env (_id user) (trades w))
           (- dailyLossCap (riskSettings user))
    then (Thrown DailyLossCapReached, w)
    else executeTrade env user parsed w.
Proof.
  intros Hparse Hcoin Hcount Hstreak.
  unfold processWebhookSignal. rewrite Hparse, Hcoin.
  unfold bind, gets, throw. cbv beta iota delta [negb].
  apply geb_false in Hcount. rewrite Hcount.
  apply Nat.leb_gt in Hstreak. rewrite Hstreak.
  destruct (leb _ _); reflexivity.
Qed.

(** C3 (as the code has it). For a signal that passes the earlier guards
    (parsed, coin enabled, daily trade count under the limit, fewer than
    three consecutive losses), [processWebhookSignal] throws 'Daily loss cap
    reached' if and only if the sum of today's filled pnl is at most minus
    the cap: the guard looks at losses only. *)
Theorem daily_loss_guard_is_signed env user raw parsed w
    (Hparse : parseSignal raw = Some parsed)
    (Hcoin : includesCoin (enabledCoins user) (s_symbol parsed) = true)
    (Hcount : inject_Z (Z.of_nat (countToday env (_id user) (trades w)))
              < maxTradeCountPerDay (riskSettings user))
    (Hstreak : (consecutiveLosses user < 3)%nat) :
  fst (processWebhookSignal env user raw w) = Thrown DailyLossCapReached
  <-> currentDayPnL env (_id user) (trades w) <= - dailyLossCap (riskSettings user).
Proof.
  rewrite (processWebhookSignal_after_guards env user raw parsed w
             Hparse Hcoin Hcount Hstreak).
  destruct (leb (currentDayPnL env (_id user) (trades w))
                (- dailyLossCap (riskSettings user))) eqn:E.
  - apply leb_true in E. split; intro; [exact E | reflexivity].
  - apply leb_false in E. split; intro H.
    + exfalso.
      destruct (executeTrade env user parsed w) as [o w'] eqn:Ex.
      simpl in H. subst o.
      destruct (executeTrade_throws _ _ _ _ _ _ Ex) as [F|F]; discriminate.
    + exfalso. apply (Qlt_not_le _ _ E H).
Qed.

Lemma daily_loss_guard_is_signed_witness :
  fst (processWebhookSignal Scenario.deadExchange Scenario.paperUser
         Scenario.buyBTC Scenario.profitableWorld) = Thrown DailyLossCapReached
  <-> currentDayPnL Scenario.deadExchange (_id Scenario.paperUser)
        (trades Scenario.profitableWorld)
      <= - dailyLossCap (riskSettings Scenario.paperUser).
Proof.
  apply (daily_loss_guard_is_signed Scenario.deadExchange Scenario.paperUser
           Scenario.buyBTC
           (mkSignal (Some "BTC"%string) (Some "BUY"%string)
                     (Some (Finite 50000)) (Some "MARKET"%string) None)
           Scenario.profitableWorld).
  - reflexivity.
  - reflexivity.
  - vm_compute. reflexivity.
  - simpl. lia.
Defined.

(** C3, the claim as stated fails: with a cap of 1000 and a day 1500 up,
    the absolute value of the day's pnl reaches the cap, the earlier guards
    pass, and the signal is executed. *)
Lemma daily_loss_guard_admits_profit :
  currentDayPnL Scenario.deadExchange (_id Scenario.paperUser)
    (trades Scenario.profitableWorld) == 1500 /\
  dailyLossCap (riskSettings Scenario.paperUser)
    <= Qabs (currentDayPnL Scenario.deadExchange (_id Scenario.paperUser)
               (trades Scenario.profitableWorld)) /\
  option_map status
    (Scenario.returned
       (fst (processWebhookSignal Scenario.deadExchange Scenario.paperUser
               Scenario.buyBTC Scenario.profitableWorld)))
  = Some FILLED /\
  fst (processWebhookSignal Scenario.deadExchange Scenario.paperUser
         Scenario.buyBTC Scenario.profitableWorld) <> Thrown DailyLossCapReached.
Proof.
  split; [vm_compute; reflexivity|].
  split; [vm_compute; discriminate|].
  split; [reflexivity|].
  vm_compute. discriminate.
Qed.

(** C1, the code at the failing input. The configuration left by
    Scenario A has the emergency stop set, and [isTradingAllowed] refuses
    every configuration whose stop is set; yet [processWebhookSignal], which
    reads the user and the trades only, executes the next signal and stores
    a FILLED trade. *)
Theorem emergency_stop_not_read_at_admission :
  TradingConfig.emergencyStop Scenario.stoppedConfig = true /\
  (forall clk c, TradingConfig.emergencyStop c = true ->
                 TradingConfig.isTradingAllowed clk c = false) /\
  exists t w',
    processWebhookSignal Scenario.deadExchange Scenario.paperUser
      Scenario.buyBTC Scenario.emptyWorld = (Returned t, w') /\
    status t = FILLED /\ trades w' = [t].
Proof.
  split; [reflexivity|]. split.
  - intros clk c H. unfold TradingConfig.isTradingAllowed. rewrite H. reflexivity.
  - eexists. eexists. split; [vm_compute; reflexivity|].
    split; reflexivity.
Qed.

(** C7, the code at the failing inputs. In the text format every action
    other than BUY (compared in upper case) becomes SELL, and the trade is
    executed as a SELL; in the JSON format the token is passed on in upper
    case, and it is the trade schema that refuses it later. *)
Theorem unknown_action_is_not_rejected :
  (forall s a sy,
      field "ACTION:" (split newline s) = Some a ->
      field "SYMBOL:" (split newline s) = Some sy ->
      truthyStr (Some a) = true -> truthyStr (Some sy) = true ->
      String.eqb (toUpperCase a) "BUY" = false ->
      option_map s_side (parseSignal (Text s)) = Some (Some "SELL"%string)) /\
  option_map s_side (parseSignal Scenario.holdText) = Some (Some "SELL"%string) /\
  (exists t w',
      processWebhookSignal Scenario.deadExchange Scenario.paperUser
        Scenario.holdText Scenario.emptyWorld = (Returned t, w') /\
      side t = "SELL"%string /\ status t = FILLED) /\
  option_map s_side (parseSignal Scenario.holdObject) = Some (Some "HOLD"%string) /\
  fst (processWebhookSignal Scenario.deadExchange Scenario.paperUser
         Scenario.holdObject Scenario.emptyWorld) = Thrown TradeValidationFailed.
Proof.
  split; [|split; [|split; [|split]]].
  - intros s a sy Ha Hsy Hta Htsy Hne.
    unfold parseSignal. rewrite Ha, Hsy, Hta, Htsy, Hne. reflexivity.
  - reflexivity.
  - eexists. eexists. split; [vm_compute; reflexivity|]. split; reflexivity.
  - reflexivity.
  - reflexivity.
Qed.

End AdmissionClaims.

(** ** Rejections and the order of the guards *)

Section GuardFacts.
Import Model TradingService.

Lemma executeTrade_never_throws_guard_error env user sg w e w' :
  executeTrade env user sg w = (Thrown e, w') ->
  e <> InvalidSignalFormat /\ (forall s, e <> TradingNotEnabled s) /\
  e <> DailyTradeLimitReached /\ e <> ConsecutiveLossesStop /\
  e <> DailyLossCapReached.
Proof.
  intro H. destruct (executeTrade_throws _ _ _ _ _ _ H) as [E|E]; subst e;
    repeat split; try intro; discriminate.
Qed.

(** What [processWebhookSignal] comes to, guard by guard. *)
Lemma processWebhookSignal_cases env user raw w :
  (parseSignal raw = None /\
   processWebhookSignal env user raw w = (Thrown InvalidSignalFormat, w)) \/
  exists parsed, parseSignal raw = Some parsed /\
    ((includesCoin (enabledCoins user) (s_symbol parsed) = false /\
      processWebhookSignal env user raw w
      = (Thrown (TradingNotEnabled (s_symbol parsed)), w)) \/
     (includesCoin (enabledCoins user) (s_symbol parsed) = true /\
      ((maxTradeCountPerDay (riskSettings user)
          <= inject_Z (Z.of_nat (countToday env (_id user) (trades w))) /\
        processWebhookSignal env user raw w = (Thrown DailyTradeLimitReached, w)) \/
       (inject_Z (Z.of_nat (countToday env (_id user) (trades w)))
          < maxTradeCountPerDay (riskSettings user) /\
        (((3 <= consecutiveLosses user)%nat /\
          processWebhookSignal env user raw w = (Thrown ConsecutiveLossesStop, w)) \/
         ((consecutiveLosses user < 3)%nat /\
          ((currentDayPnL env (_id user) (trades w)
              <= - dailyLossCap (riskSettings user) /\
            processWebhookSignal env user raw w = (Thrown DailyLossCapReached, w)) \/
           (- dailyLossCap (riskSettings user)
              < currentDayPnL env (_id user) (trades w) /\
            processWebhookSignal env user raw w
            = executeTrade env user parsed w)))))))).
Proof.
  unfold processWebhookSignal.
  destruct (parseSignal raw) as [parsed|]; [right | left; split; reflexivity].
  exists parsed. split; [reflexivity|].
  destruct (includesCoin (enabledCoins user) (s_symbol parsed)) eqn:Ecoin;
    [right; split; [reflexivity|] | left; split; reflexivity].
  unfold bind, gets, throw. cbv beta iota delta [negb].
  destruct (geb (inject_Z (Z.of_nat (countToday env (_id user) (trades w))))
                (maxTradeCountPerDay (riskSettings user))) eqn:Ecount.
  - left. split; [apply geb_true; exact Ecount | reflexivity].
  - right. split; [apply geb_false; exact Ecount|].
    destruct (3 <=? consecutiveLosses user)%nat eqn:Estreak.
    + left. split; [apply Nat.leb_le; exact Estreak | reflexivity].
    + right. split; [apply Nat.leb_gt; exact Estreak|].
      destruct (leb (currentDayPnL env (_id user) (trades w))
                    (- dailyLossCap (riskSettings user))) eqn:Ecap.
      * left. split; [apply leb_true; exact Ecap | reflexivity].
      * right. split; [apply leb_false; exact Ecap | reflexivity].
Qed.

(** X1. A signal turned down by one of the five guards of
    [processWebhookSignal] (format, coin, daily count, consecutive losses,
    loss cap) changes nothing: no trade is stored, no user statistics move,
    the exchange is not contacted. *)
Theorem guard_rejection_changes_nothing env user raw w e
    (Hthrown : fst (processWebhookSignal env user raw w) = Thrown e)
    (Hguard : e <> TradeValidationFailed /\ e <> DeltaOrderFailed) :
  snd (processWebhookSignal env user raw w) = w.
Proof.
  destruct Hguard as [Hv Hd].
  destruct (processWebhookSignal_cases env user raw w)
    as [[_ E] | (parsed & _ & [[_ E] | [_ [[_ E] | [_ [[_ E] | [_ [[_ E] | [_ E]]]]]]]])];
    try (rewrite E; reflexivity).
  rewrite E in Hthrown |- *.
  destruct (executeTrade env user parsed w) as [o w'] eqn:Ex.
  simpl in Hthrown. subst o.
  destruct (executeTrade_throws _ _ _ _ _ _ Ex); contradiction.
Qed.

Lemma guard_rejection_changes_nothing_witness :
  snd (processWebhookSignal Scenario.deadExchange Scenario.paperUser
         TradingService.Other Scenario.profitableWorld)
  = Scenario.profitableWorld.
Proof.
  apply (guard_rejection_changes_nothing Scenario.deadExchange Scenario.paperUser
           TradingService.Other Scenario.profitableWorld InvalidSignalFormat).
  - reflexivity.
  - split; discriminate.
Defined.

(** X2. The guards fire in source order.  For a parsed signal:
    'Trading not enabled' is thrown exactly when the coin is not in the
    user's list; with the coin enabled, 'Daily trade limit reached' exactly
    when today's count has reached the maximum; below the maximum, 'Trading
    stopped due to consecutive losses' exactly when the user has three or
    more, whatever the day's pnl. *)
Theorem guards_fire_in_order env user raw parsed w
    (Hparse : parseSignal raw = Some parsed) :
  (fst (processWebhookSignal env user raw w) = Thrown (TradingNotEnabled (s_symbol parsed))
   <-> includesCoin (enabledCoins user) (s_symbol parsed) = false) /\
  (includesCoin (enabledCoins user) (s_symbol parsed) = true ->
   (fst (processWebhookSignal env user raw w) = Thrown DailyTradeLimitReached
    <-> maxTradeCountPerDay (riskSettings user)
        <= inject_Z (Z.of_nat (countToday env (_id user) (trades w))))) /\
  (includesCoin (enabledCoins user) (s_symbol parsed) = true ->
   inject_Z (Z.of_nat (countToday env (_id user) (trades w)))
     < maxTradeCountPerDay (riskSettings user) ->
   (fst (processWebhookSignal env user raw w) = Thrown ConsecutiveLossesStop
    <-> (3 <= consecutiveLosses user)%nat)).
Proof.
  assert (Hex : forall e, fst (executeTrade env user parsed w) = Thrown e ->
                          e = TradeValidationFailed \/ e = DeltaOrderFailed).
  { intros e H. destruct (executeTrade env user parsed w) as [o w'] eqn:Ex.
    simpl in H. subst o. exact (executeTrade_throws _ _ _ _ _ _ Ex). }
  destruct (processWebhookSignal_cases env user raw w)
    as [[Hn _] | (parsed' & Hp & Hcases)]; [congruence|].
  assert (parsed' = parsed) by congruence. subst parsed'. clear Hp.
  destruct Hcases as [[Hc E] | [Hc [[Hcnt E] | [Hcnt [[Hs E] | [Hs [[Hpnl E] | [Hpnl E]]]]]]]];
    rewrite E; simpl; (split; [|split]); try (intros; split; intro); try intros;
    try reflexivity; try congruence; try discriminate;
    try (exfalso; apply (Qlt_not_le _ _ Hcnt); assumption);
    try (exfalso; lia);
    try assumption;
    try (match goal with
         | H : fst (executeTrade _ _ _ _) = Thrown _ |- _ =>
             destruct (Hex _ H); discriminate
         end).
  all: try (exfalso; match goal with
         | H1 : _ <= ?x, H2 : ?x < _ |- _ => apply (Qlt_not_le _ _ H2 H1)
         end).
Qed.

Lemma guards_fire_in_order_witness :
  includesCoin (enabledCoins Scenario.paperUser) (s_symbol Scenario.bigSignal) = true /\
  (fst (processWebhookSignal Scenario.deadExchange Scenario.paperUser
          Scenario.buyBTCBig Scenario.emptyWorld) = Thrown ConsecutiveLossesStop
   <-> (3 <= consecutiveLosses Scenario.paperUser)%nat).
Proof.
  assert (Hc : includesCoin (enabledCoins Scenario.paperUser)
                 (s_symbol Scenario.bigSignal) = true) by reflexivity.
  split; [exact Hc|].
  apply (proj2 (proj2 (guards_fire_in_order Scenario.deadExchange Scenario.paperUser
                         Scenario.buyBTCBig Scenario.bigSignal Scenario.emptyWorld
                         eq_refl)) Hc).
  vm_compute. reflexivity.
Defined.

End GuardFacts.

(** ** The collections after an execution *)

Section StoreFacts.
Import Model TradingService Engine.

Lemma updateFirst_nowhere {A} (p : A -> bool) f (l : list A) :
  (forall x, In x l -> p x = false) -> updateFirst p f l = l.
Proof.
  induction l as [|a l IH]; intro H; simpl; [reflexivity|].
  rewrite (H a (or_introl eq_refl)). f_equal. apply IH.
  intros x Hx. apply H. right. exact Hx.
Qed.

Lemma updateFirst_last {A} (p : A -> bool) f (l : list A) a :
  (forall x, In x l -> p x = false) -> p a = true ->
  updateFirst p f (l ++ [a]) = l ++ [f a].
Proof.
  induction l as [|b l IH]; intros H Ha; simpl.
  - rewrite Ha. reflexivity.
  - rewrite (H b (or_introl eq_refl)). f_equal. apply IH; [|exact Ha].
    intros x Hx. apply H. right. exact Hx.
Qed.

Lemma find_updateFirst {A} (p : A -> bool) f (l : list A) :
  (forall x, p x = true -> p (f x) = true) ->
  find p (updateFirst p f l) = option_map f (find p l).
Proof.
  intro Hp. induction l as [|a l IH]; simpl; [reflexivity|].
  destruct (p a) eqn:E; simpl.
  - rewrite (Hp a E). reflexivity.
  - rewrite E. exact IH.
Qed.

Lemma positions_below ts :
  idsArePositions ts -> forall x, In x ts -> (tradeId x < List.length ts)%nat.
Proof.
  intros H x Hx. destruct (In_nth_error _ _ Hx) as [i Hi].
  rewrite (H i x Hi). apply nth_error_Some. congruence.
Qed.

Lemma positions_snoc ts t :
  idsArePositions ts -> tradeId t = List.length ts -> idsArePositions (ts ++ [t]).
Proof.
  intros H Ht i x Hi.
  destruct (Nat.lt_ge_cases i (List.length ts)) as [Hlt|Hge].
  - rewrite nth_error_app1 in Hi by exact Hlt. apply H. exact Hi.
  - rewrite nth_error_app2 in Hi by exact Hge.
    destruct (i - List.length ts)%nat as [|k] eqn:Ek; simpl in Hi.
    + injection Hi as <-. lia.
    + destruct k; discriminate.
Qed.

Lemma save_last env w ts t0 t us cs :
  idsArePositions ts -> tradeId t0 = List.length ts -> tradeId t = tradeId t0 ->
  w = mkWorld (ts ++ [t0]) us cs ->
  trades (snd (save env t w)) = ts ++ [t].
Proof.
  intros Hwf H0 Ht ->. unfold save, modify. simpl.
  apply (updateFirst_last (fun x => (tradeId x =? tradeId t)%nat) (fun _ => t)).
  - intros x Hx. apply Nat.eqb_neq. pose proof (positions_below ts Hwf x Hx). lia.
  - apply Nat.eqb_eq. congruence.
Qed.

(** The whole effect of [executeTrade] on the two collections. *)
Lemma executeTrade_world env user sg w o w' :
  idsArePositions (trades w) ->
  executeTrade env user sg w = (o, w') ->
  (o = Thrown TradeValidationFailed /\ trades w' = trades w /\ users w' = users w) \/
  exists t,
    trades w' = trades w ++ [t] /\
    tradeId t = List.length (trades w) /\ userId t = _id user /\
    createdAt t = now env /\ pnl t = 0 /\
    strategy t = "webhook_signal"%string /\ confidenceScore t = 75 /\
    ((o = Returned t /\ status t = FILLED /\
      negb (paperTradingMode user) && deltaConnected user = false /\
      users w' = updateFirst (fun u => (_id u =? _id user)%nat)
                             (fun u => applyFill t u (now env)) (users w)) \/
     (o = Returned t /\ status t = PENDING /\
      negb (paperTradingMode user) && deltaConnected user = true /\
      users w' = users w) \/
     (o = Thrown DeltaOrderFailed /\ status t = REJECTED /\
      negb (paperTradingMode user) && deltaConnected user = true /\
      users w' = users w)).
Proof.
  intros Hwf H.
  destruct (resolvePrice_returns env sg w) as (p & w1 & E & Ht1 & Hu1 & _).
  unfold executeTrade, bind in H. rewrite E in H.
  unfold create in H.
  destruct (validSide (s_side sg) && validType (typeOrMarket sg)
            && negb (isNaN (orNumber (s_quantity sg) (calculatePositionSize user p)))
            && negb (isNaN p)).
  2:{ left. unfold throw in H. injection H as <- <-. auto. }
  right. unfold bind, gets, modify, ret in H. simpl in H.
  rewrite Ht1, Hu1 in H.
  set (t0 := mkTrade (List.length (trades w)) (_id user) (pairOf (s_symbol sg))
               (match s_side sg with Some v => v | None => EmptyString end)
               (typeOrMarket sg)
               (orNumber (s_quantity sg) (calculatePositionSize user p)) p
               (Finite 0) PENDING EmptyString "webhook_signal" 75 0 0
               (paperTradingMode user) (now env)) in *.
  assert (Hlast : forall t,
            updateFirst (fun x => (tradeId x =? List.length (trades w))%nat)
                        (fun _ => t) (trades w ++ [t0]) = trades w ++ [t]).
  { intros t.
    apply (updateFirst_last (fun x => (tradeId x =? List.length (trades w))%nat)
                            (fun _ => t)).
    - intros x Hx. apply Nat.eqb_neq.
      pose proof (positions_below _ Hwf x Hx). lia.
    - apply Nat.eqb_eq. reflexivity. }
  destruct (negb (paperTradingMode user) && deltaConnected user) eqn:Emode.
  - unfold tryCatch, bind, executeDeltaOrder in H.
    destruct (truthyStr (deltaApiKey user) && truthyStr (deltaApiSecret user)).
    + unfold request, modify, bind, throw, ret, save in H. simpl in H.
      destruct (placeOrder env t0) as [id|]; simpl in H; injection H as <- <-; simpl.
      * exists (set_status (set_orderId t0 id) PENDING).
        rewrite Hlast. repeat split; auto 12.
      * exists (set_status t0 REJECTED).
        rewrite Hlast. repeat split; auto 12.
    + unfold throw, save, modify, bind in H. simpl in H. injection H as <- <-. simpl.
      exists (set_status t0 REJECTED).
      rewrite Hlast. repeat split; auto 12.
  - unfold save, modify, bind, ret in H. simpl in H. injection H as <- <-. simpl.
    exists (set_executedPrice (set_status t0 FILLED) p).
    rewrite Hlast. repeat split; auto 12.
Qed.

(** Where the trades end up after an execution. *)
Lemma executeTrade_store_shape env user sg w o w'
    (Hwf : idsArePositions (trades w))
    (Hrun : executeTrade env user sg w = (o, w')) :
  idsArePositions (trades w') /\
  ((o = Thrown TradeValidationFailed /\ trades w' = trades w) \/
   exists t,
     trades w' = trades w ++ [t] /\ userId t = _id user /\ createdAt t = now env /\
     ((o = Returned t /\ (status t = FILLED \/ status t = PENDING)) \/
      (o = Thrown DeltaOrderFailed /\ status t = REJECTED))).
Proof.
  destruct (executeTrade_world env user sg w o w' Hwf Hrun)
    as [(Ho & Ht & _) | (t & Ht & Hid & Hu & Hc & _ & _ & _ & Hcases)].
  - split; [rewrite Ht; exact Hwf | left; auto].
  - split; [rewrite Ht; apply positions_snoc; assumption|].
    right. exists t. repeat split; auto.
    destruct Hcases as [(Ho & Hs & _) | [(Ho & Hs & _) | (Ho & Hs & _)]]; auto.
Qed.

(** X3. Starting from a collection whose trade ids are the positions,
    [executeTrade] either stores nothing (the schema refused the document) or
    appends exactly one trade of the calling user, stamped with the current
    time, and leaves every earlier trade as it was: the returned trade when
    it is FILLED or PENDING, a REJECTED trade when the exchange order failed.
    Ids are positions again afterwards. *)
Theorem executeTrade_stores_one_trade env user sg w o w'
    (Hwf : idsArePositions (trades w))
    (Hrun : executeTrade env user sg w = (o, w')) :
  idsArePositions (trades w') /\
  ((o = Thrown TradeValidationFailed /\ trades w' = trades w) \/
   exists t,
     trades w' = trades w ++ [t] /\ userId t = _id user /\ createdAt t = now env /\
     ((o = Returned t /\ (status t = FILLED \/ status t = PENDING)) \/
      (o = Thrown DeltaOrderFailed /\ status t = REJECTED))).
Proof. exact (executeTrade_store_shape env user sg w o w' Hwf Hrun). Qed.

Lemma executeTrade_stores_one_trade_witness :
  idsArePositions
    (trades (snd (executeTrade Scenario.deadExchange Scenario.paperUser
                    Scenario.bigSignal Scenario.profitableWorld))).
Proof.
  assert (Hwf : idsArePositions (trades Scenario.profitableWorld)).
  { intros i t Hi. destruct i as [|[|i]]; simpl in Hi; try discriminate.
    injection Hi as <-. reflexivity. }
  exact (proj1 (executeTrade_stores_one_trade Scenario.deadExchange
                  Scenario.paperUser Scenario.bigSignal Scenario.profitableWorld
                  _ _ Hwf (surjective_pairing _))).
Defined.

End StoreFacts.

(** ** The daily limit and the statistics of simulated fills *)

Section LimitFacts.
Import Model TradingService Engine.

Lemma countToday_snoc env uid ts t :
  countToday env uid (ts ++ [t])
  = (countToday env uid ts
     + if (userId t =? uid)%nat && (today env <=? createdAt t)%Z then 1 else 0)%nat.
Proof.
  unfold countToday. rewrite filter_app, length_app. simpl.
  destruct ((userId t =? uid)%nat && (today env <=? createdAt t)%Z); reflexivity.
Qed.

(** One request: the trades stay as they are, or one trade of the calling
    user is appended after the daily count was found below the maximum. *)
Lemma processWebhookSignal_step env user raw w :
  idsArePositions (trades w) ->
  idsArePositions (trades (snd (processWebhookSignal env user raw w))) /\
  (trades (snd (processWebhookSignal env user raw w)) = trades w \/
   exists t,
     trades (snd (processWebhookSignal env user raw w)) = trades w ++ [t] /\
     userId t = _id user /\
     inject_Z (Z.of_nat (countToday env (_id user) (trades w)))
       < maxTradeCountPerDay (riskSettings user)).
Proof.
  intro Hwf.
  destruct (processWebhookSignal_cases env user raw w)
    as [[_ E] | (parsed & _ & [[_ E] | [_ [[_ E] | [Hcnt [[_ E] | [_ [[_ E] | [_ E]]]]]]]])];
    rewrite E; simpl; auto.
  destruct (executeTrade env user parsed w) as [o w'] eqn:Ex.
  destruct (executeTrade_store_shape env user parsed w o w' Hwf Ex)
    as [Hwf' [[_ Ht] | (t & Ht & Hu & _)]]; simpl.
  - auto.
  - split; [exact Hwf'|]. right. exists t. auto.
Qed.

(** X4. With ids as positions and a whole number [n] as every request's
    [maxTradeCountPerDay] for user [uid], serving any sequence of webhook
    requests (of this user or of others) never takes the number of today's
    trades of [uid] above [n] once it is at most [n]. *)
Theorem daily_trade_limit_holds env (n : nat) (uid : nat) :
  forall (reqs : list (User * RawSignal)) (w : World),
    idsArePositions (trades w) ->
    Forall (fun ur => _id (fst ur) = uid ->
                      maxTradeCountPerDay (riskSettings (fst ur))
                      == inject_Z (Z.of_nat n)) reqs ->
    (countToday env uid (trades w) <= n)%nat ->
    (countToday env uid (trades (processWebhookSignals env reqs w)) <= n)%nat.
Proof.
  induction reqs as [|[user raw] reqs IH]; intros w Hwf Hreqs Hstart; simpl.
  - exact Hstart.
  - inversion Hreqs as [|x l Hhead Htail]; subst. simpl in Hhead.
    destruct (processWebhookSignal_step env user raw w Hwf) as [Hwf' Hstep].
    apply IH; [exact Hwf' | exact Htail |].
    destruct Hstep as [-> | (t & -> & Hu & Hlt)]; [exact Hstart|].
    rewrite countToday_snoc.
    destruct (Nat.eq_dec (_id user) uid) as [Heq|Hne].
    + rewrite (Hhead Heq), Heq in Hlt.
      rewrite <- Zlt_Qlt in Hlt. apply Nat2Z.inj_lt in Hlt.
      destruct ((userId t =? uid)%nat && (today env <=? createdAt t)%Z); lia.
    + assert (E : (userId t =? uid)%nat = false).
      { apply Nat.eqb_neq. congruence. }
      rewrite E. simpl. lia.
Qed.

Lemma daily_trade_limit_holds_witness :
  (countToday Scenario.deadExchange 7
     (trades (processWebhookSignals Scenario.deadExchange
                [(Scenario.paperUser, Scenario.buyBTC);
                 (Scenario.paperUser, Scenario.buyBTCBig)]
                Scenario.emptyWorld)) <= 10)%nat.
Proof.
  apply (daily_trade_limit_holds Scenario.deadExchange 10 7).
  - intros i t Hi. destruct i; discriminate.
  - repeat constructor.
  - apply Nat.leb_le. reflexivity.
Defined.

Lemma executeTrade_keeps_users_apart env user sg w o w' :
  idsArePositions (trades w) ->
  executeTrade env user sg w = (o, w') ->
  forall t, o = Returned t ->
    pnl t = 0 /\
    (negb (paperTradingMode user) && deltaConnected user = false ->
     status t = FILLED /\
     users w' = updateFirst (fun u => (_id u =? _id user)%nat)
                            (fun u => applyFill t u (now env)) (users w)).
Proof.
  intros Hwf H t ->.
  destruct (executeTrade_world env user sg w _ w' Hwf H)
    as [(Ho & _) | (t' & _ & _ & _ & _ & Hpnl & _ & _ & Hcases)]; [discriminate|].
  destruct Hcases as [(Ho & Hs & Hm & Hu) | [(Ho & Hs & Hm & Hu) | (Ho & _)]].
  - injection Ho as ->. split; [exact Hpnl|]. intros _. split; assumption.
  - injection Ho as ->. split; [exact Hpnl|]. intro Hmode. congruence.
  - discriminate.
Qed.

(** The stored user after a simulated fill. *)
Lemma simulated_fill_updates_user env user sg w t w' u
    (Hwf : idsArePositions (trades w))
    (Hmode : negb (paperTradingMode user) && deltaConnected user = false)
    (Hrun : executeTrade env user sg w = (Returned t, w'))
    (Hfound : findUser (_id user) w = Some u) :
  exists u',
    findUser (_id user) w' = Some u' /\
    consecutiveLosses u' = S (consecutiveLosses u) /\
    totalTrades u' = S (totalTrades u) /\
    winningTrades u' = winningTrades u /\
    dailyPnL u' == dailyPnL u /\ totalPnL u' == totalPnL u /\
    _id u' = _id u /\ paperTradingMode u' = paperTradingMode u /\
    deltaConnected u' = deltaConnected u /\ enabledCoins u' = enabledCoins u /\
    riskSettings u' = riskSettings u.
Proof.
  destruct (executeTrade_keeps_users_apart env user sg w _ w' Hwf Hrun t eq_refl)
    as [Hpnl Hsim].
  destruct (Hsim Hmode) as [_ Hu].
  exists (applyFill t u (now env)).
  unfold findUser in *. rewrite Hu.
  rewrite find_updateFirst by (intros x Hx; exact Hx).
  rewrite Hfound. simpl. rewrite Hpnl.
  repeat split; try reflexivity.
  - unfold Qeq; simpl; lia.
  - unfold Qeq; simpl; lia.
Qed.

(** X5. A simulated fill is booked as a loss.  When [executeTrade] returns
    a trade for a paper-trading (or not connected) user whose document is in
    the collection, the stored user afterwards has one more trade, one more
    consecutive loss, the same number of wins and the same daily and total
    pnl: the trade's pnl is still the default 0, which the save hook does not
    count as a win. *)
Theorem simulated_fill_booked_as_loss env user sg w t w' u
    (Hwf : idsArePositions (trades w))
    (Hmode : negb (paperTradingMode user) && deltaConnected user = false)
    (Hrun : executeTrade env user sg w = (Returned t, w'))
    (Hfound : findUser (_id user) w = Some u) :
  exists u',
    findUser (_id user) w' = Some u' /\
    consecutiveLosses u' = S (consecutiveLosses u) /\
    totalTrades u' = S (totalTrades u) /\
    winningTrades u' = winningTrades u /\
    dailyPnL u' == dailyPnL u /\ totalPnL u' == totalPnL u /\
    _id u' = _id u /\ paperTradingMode u' = paperTradingMode u /\
    deltaConnected u' = deltaConnected u /\ enabledCoins u' = enabledCoins u /\
    riskSettings u' = riskSettings u.
Proof.
  exact (simulated_fill_updates_user env user sg w t w' u Hwf Hmode Hrun Hfound).
Qed.

Lemma simulated_fill_booked_as_loss_witness :
  exists u',
    findUser 7 (snd (executeTrade Scenario.deadExchange Scenario.paperUser
                       Scenario.bigSignal Scenario.emptyWorld)) = Some u' /\
    consecutiveLosses u' = 1%nat.
Proof.
  destruct (simulated_fill_booked_as_loss Scenario.deadExchange Scenario.paperUser
              Scenario.bigSignal Scenario.emptyWorld
              (set_executedPrice
                 (set_status
                    (mkTrade 0 7 "BTCUSDT" "BUY" "MARKET" (Finite 1000)
                       (Finite 50000) (Finite 0) PENDING "" "webhook_signal"
                       75 0 0 true 43200000) FILLED) (Finite 50000))
              (snd (executeTrade Scenario.deadExchange Scenario.paperUser
                      Scenario.bigSignal Scenario.emptyWorld))
              Scenario.paperUser)
    as (u' & Hf & Hc & _).
  - intros i t Hi. destruct i; discriminate.
  - reflexivity.
  - reflexivity.
  - reflexivity.
  - exists u'. split; [exact Hf | exact Hc].
Defined.

End LimitFacts.

(** ** Simulated trading stops itself *)

Section LockoutFacts.
Import Model TradingService Engine.

Lemma findUser_id uid w u : findUser uid w = Some u -> _id u = uid.
Proof.
  unfold findUser. intro H. apply find_some in H as [_ H].
  apply Nat.eqb_eq. exact H.
Qed.

(** One executed webhook signal of a simulated user, seen from the stored
    user document. *)
Lemma webhook_fill_step env u raw w t w' :
  idsArePositions (trades w) ->
  negb (paperTradingMode u) && deltaConnected u = false ->
  findUser (_id u) w = Some u ->
  processWebhookSignal env u raw w = (Returned t, w') ->
  idsArePositions (trades w') /\
  exists u',
    findUser (_id u) w' = Some u' /\
    consecutiveLosses u' = S (consecutiveLosses u) /\
    negb (paperTradingMode u') && deltaConnected u' = false.
Proof.
  intros Hwf Hsim Hfound Hrun.
  destruct (processWebhookSignal_cases env u raw w)
    as [[_ E] | (parsed & _ & [[_ E] | [_ [[_ E] | [_ [[_ E] | [_ [[_ E] | [_ E]]]]]]]])];
    rewrite E in Hrun; try discriminate.
  split.
  - exact (proj1 (executeTrade_store_shape env u parsed w _ w' Hwf Hrun)).
  - destruct (simulated_fill_updates_user env u parsed w t w' u Hwf Hsim Hrun Hfound)
      as (u' & Hf & Hc & _ & _ & _ & _ & _ & Hp & Hd & _).
    exists u'. rewrite Hp, Hd. auto.
Qed.

(** X6. Simulated trading stops itself after three fills.  Take a user in
    simulated mode whose document is reloaded from the collection before each
    webhook signal.  Once three signals have been executed, the reloaded user
    has at least three consecutive losses, and every further signal is thrown
    out by a guard without touching the collections or the exchange: nothing
    in the execution path ever books a win. *)
Theorem three_simulated_fills_stop_webhooks
    env uid w0 u0 raw1 t1 w1 u1 raw2 t2 w2 u2 raw3 t3 w3 u3 raw4
    (Hwf : idsArePositions (trades w0))
    (Hsim : negb (paperTradingMode u0) && deltaConnected u0 = false)
    (L0 : findUser uid w0 = Some u0)
    (R1 : processWebhookSignal env u0 raw1 w0 = (Returned t1, w1))
    (L1 : findUser uid w1 = Some u1)
    (R2 : processWebhookSignal env u1 raw2 w1 = (Returned t2, w2))
    (L2 : findUser uid w2 = Some u2)
    (R3 : processWebhookSignal env u2 raw3 w2 = (Returned t3, w3))
    (L3 : findUser uid w3 = Some u3) :
  (3 <= consecutiveLosses u3)%nat /\
  exists e, processWebhookSignal env u3 raw4 w3 = (Thrown e, w3).
Proof.
  pose proof (findUser_id _ _ _ L0) as I0.
  rewrite <- I0 in L0.
  destruct (webhook_fill_step env u0 raw1 w0 t1 w1 Hwf Hsim L0 R1)
    as (Hwf1 & u1' & F1 & C1 & S1).
  rewrite I0 in F1. rewrite F1 in L1. injection L1 as ->.
  pose proof (findUser_id _ _ _ F1) as I1. rewrite <- I1 in F1.
  destruct (webhook_fill_step env u1 raw2 w1 t2 w2 Hwf1 S1 F1 R2)
    as (Hwf2 & u2' & F2 & C2 & S2).
  rewrite I1 in F2. rewrite F2 in L2. injection L2 as ->.
  pose proof (findUser_id _ _ _ F2) as I2. rewrite <- I2 in F2.
  destruct (webhook_fill_step env u2 raw3 w2 t3 w3 Hwf2 S2 F2 R3)
    as (Hwf3 & u3' & F3 & C3 & S3).
  rewrite I2 in F3. rewrite F3 in L3. injection L3 as ->.
  assert (Hstreak : (3 <= consecutiveLosses u3)%nat) by lia.
  split; [exact Hstreak|].
  destruct (processWebhookSignal_cases env u3 raw4 w3)
    as [[_ E] | (parsed & _ & [[_ E] | [_ [[_ E] | [_ [[_ E] | [Hlt _]]]]]])];
    try (eexists; exact E).
  exfalso. lia.
Qed.

Lemma three_simulated_fills_stop_webhooks_witness :
  exists e,
    processWebhookSignal Scenario.deadExchange
      (mkUser 7 ["BTC"%string; "ETH"%string] true true false None None
              (mkRisk 1000 10 5) 3 0 0 0 (Some 43200000%Z) 3)
      Scenario.buyBTC
      (Engine.processWebhookSignals Scenario.deadExchange
         [(Scenario.paperUser, Scenario.buyBTC);
          (mkUser 7 ["BTC"%string; "ETH"%string] true true false None None
                  (mkRisk 1000 10 5) 1 0 0 0 (Some 43200000%Z) 1,
           Scenario.buyBTCBig);
          (mkUser 7 ["BTC"%string; "ETH"%string] true true false None None
                  (mkRisk 1000 10 5) 2 0 0 0 (Some 43200000%Z) 2,
           Scenario.buyBTCAtMarket)]
         Scenario.emptyWorld)
    = (Thrown e,
       Engine.processWebhookSignals Scenario.deadExchange
         [(Scenario.paperUser, Scenario.buyBTC);
          (mkUser 7 ["BTC"%string; "ETH"%string] true true false None None
                  (mkRisk 1000 10 5) 1 0 0 0 (Some 43200000%Z) 1,
           Scenario.buyBTCBig);
          (mkUser 7 ["BTC"%string; "ETH"%string] true true false None None
                  (mkRisk 1000 10 5) 2 0 0 0 (Some 43200000%Z) 2,
           Scenario.buyBTCAtMarket)]
         Scenario.emptyWorld).
Proof.
  refine (proj2 (three_simulated_fills_stop_webhooks Scenario.deadExchange 7
            Scenario.emptyWorld Scenario.paperUser
            Scenario.buyBTC _ _ _
            Scenario.buyBTCBig _ _ _
            Scenario.buyBTCAtMarket _ _ _
            Scenario.buyBTC
            _ eq_refl eq_refl (surjective_pairing _) _ _ _ _ _)).
  - intros i t Hi. destruct i; discriminate.
  - vm_compute. reflexivity.
  - vm_compute. reflexivity.
  - vm_compute. reflexivity.
  - vm_compute. reflexivity.
  - vm_compute. reflexivity.
Defined.

End LockoutFacts.

(** ** Sizing and live orders *)

Section SizingFacts.
Import Model TradingService.

(** X8. A symbol outside the five-entry product table is ordered as
    product 1, the product of BTCUSDT: with both API keys present,
    [executeDeltaOrder] posts the trade under product id 1, and every product
    id sent lies between 1 and 5. *)
Theorem unlisted_symbol_ordered_as_product_1 env user trade w
    (Hkeys : truthyStr (deltaApiKey user) && truthyStr (deltaApiSecret user) = true)
    (Hunlisted : existsb (String.eqb (symbol trade))
                   ["ETHUSDT"; "ADAUSDT"; "DOTUSDT"; "LINKUSDT"]%string = false) :
  calls (snd (executeDeltaOrder env user trade w))
    = calls w ++ [OrderRequest 1 trade] /\
  (forall s, (1 <= getProductId s <= 5)%nat).
Proof.
  split.
  - unfold executeDeltaOrder. rewrite Hkeys.
    unfold bind, request, modify, ret, throw. simpl.
    assert (E : getProductId (symbol trade) = 1%nat).
    { simpl in Hunlisted. rewrite !orb_false_iff in Hunlisted.
      destruct Hunlisted as (H2 & H3 & H4 & H5 & _).
      unfold getProductId. rewrite H2, H3, H4, H5.
      destruct (String.eqb (symbol trade) "BTCUSDT"); reflexivity. }
    rewrite E. destruct (placeOrder env trade); reflexivity.
  - intro s. unfold getProductId.
    repeat match goal with
           | |- context [if ?b then _ else _] => destruct b
           end; lia.
Qed.

Lemma unlisted_symbol_ordered_as_product_1_witness :
  calls (snd (executeDeltaOrder Scenario.deadExchange
                (mkUser 8 ["SOL"%string] true false true (Some "k"%string)
                        (Some "s"%string) (mkRisk 1000 10 5) 0 0 0 0 None 0)
                (mkTrade 0 8 "SOLUSDT" "BUY" "MARKET" (Finite 1) (Finite 20)
                         (Finite 0) PENDING "" "webhook_signal" 75 0 0 false 0)
                Scenario.emptyWorld))
  = calls Scenario.emptyWorld ++
    [OrderRequest 1
       (mkTrade 0 8 "SOLUSDT" "BUY" "MARKET" (Finite 1) (Finite 20)
                (Finite 0) PENDING "" "webhook_signal" 75 0 0 false 0)].
Proof.
  apply (unlisted_symbol_ordered_as_product_1 Scenario.deadExchange
           (mkUser 8 ["SOL"%string] true false true (Some "k"%string)
                   (Some "s"%string) (mkRisk 1000 10 5) 0 0 0 0 None 0)
           (mkTrade 0 8 "SOLUSDT" "BUY" "MARKET" (Finite 1) (Finite 20)
                    (Finite 0) PENDING "" "webhook_signal" 75 0 0 false 0)
           Scenario.emptyWorld).
  - reflexivity.
  - reflexivity.
Defined.

(** X9. A live order (user not in paper mode and connected) whose document
    the schema accepts.  Without both API keys the execution throws 'Failed
    to execute order on Delta Exchange' and the exchange receives no order;
    with the keys exactly one order is posted, and the execution returns a
    PENDING trade carrying the exchange's order id when the exchange accepts,
    and throws the same error when it refuses. *)
Theorem live_order_outcomes env user sg w p w1
    (Hlive : negb (paperTradingMode user) && deltaConnected user = true)
    (Hprice : resolvePrice env sg w = (Returned p, w1))
    (Hside : validSide (s_side sg) = true)
    (Htype : validType (typeOrMarket sg) = true)
    (Hp : isNaN p = false)
    (Hq : isNaN (orNumber (s_quantity sg) (calculatePositionSize user p)) = false) :
  (truthyStr (deltaApiKey user) && truthyStr (deltaApiSecret user) = false ->
   fst (executeTrade env user sg w) = Thrown DeltaOrderFailed /\
   calls (snd (executeTrade env user sg w)) = calls w1) /\
  (truthyStr (deltaApiKey user) && truthyStr (deltaApiSecret user) = true ->
   exists t0,
     status t0 = PENDING /\ price t0 = p /\
     calls (snd (executeTrade env user sg w))
       = calls w1 ++ [OrderRequest (getProductId (pairOf (s_symbol sg))) t0] /\
     match placeOrder env t0 with
     | Some id =>
         exists t, fst (executeTrade env user sg w) = Returned t /\
                   status t = PENDING /\ orderId t = id /\
                   quantity t = quantity t0 /\ price t = p
     | None => fst (executeTrade env user sg w) = Thrown DeltaOrderFailed
     end).
Proof.
  destruct (create_accepts env (_id user) (pairOf (s_symbol sg)) (s_side sg)
              (typeOrMarket sg)
              (orNumber (s_quantity sg) (calculatePositionSize user p))
              p (paperTradingMode user) w1 Hside Htype Hq Hp)
    as (t0 & Ec & Hq0 & Hp0 & Hst & _ & _ & Hsym & _).
  assert (Ex : executeTrade env user sg w
               = tryCatch
                   (id <- executeDeltaOrder env user t0 ;;
                    let placed := set_status (set_orderId t0 id) PENDING in
                    save env placed ;;; ret placed)
                   (fun deltaError =>
                      save env (set_status t0 REJECTED) ;;; throw deltaError)
                   (mkWorld (trades w1 ++ [t0]) (users w1) (calls w1))).
  { unfold executeTrade. unfold bind at 1. rewrite Hprice.
    unfold bind at 1. rewrite Ec, Hlive. reflexivity. }
  rewrite Ex. split; intro Hkeys.
  - unfold tryCatch, bind, executeDeltaOrder. rewrite Hkeys.
    unfold throw, save, modify. simpl. auto.
  - exists t0. split; [exact Hst|]. split; [exact Hp0|].
    unfold tryCatch, bind, executeDeltaOrder. rewrite Hkeys.
    unfold request, modify, bind, throw, ret, save. simpl. rewrite Hsym.
    destruct (placeOrder env t0) as [id|]; simpl.
    + split; [reflexivity|]. eexists. split; [reflexivity|]. simpl. auto.
    + split; reflexivity.
Qed.

Lemma live_order_outcomes_witness :
  fst (executeTrade Scenario.deadExchange
         (mkUser 8 ["BTC"%string] true false true None None
                 (mkRisk 1000 10 5) 0 0 0 0 None 0)
         Scenario.bigSignal Scenario.emptyWorld) = Thrown DeltaOrderFailed /\
  calls (snd (executeTrade Scenario.deadExchange
                (mkUser 8 ["BTC"%string] true false true None None
                        (mkRisk 1000 10 5) 0 0 0 0 None 0)
                Scenario.bigSignal Scenario.emptyWorld))
  = calls Scenario.emptyWorld.
Proof.
  apply (proj1 (live_order_outcomes Scenario.deadExchange
                  (mkUser 8 ["BTC"%string] true false true None None
                          (mkRisk 1000 10 5) 0 0 0 0 None 0)
                  Scenario.bigSignal Scenario.emptyWorld (Finite 50000)
                  Scenario.emptyWorld
                  eq_refl eq_refl eq_refl eq_refl eq_refl eq_refl)).
  reflexivity.
Defined.

End SizingFacts.

(** ** The configuration under fills, stops and resets *)

Section ConfigFacts.
Import TradingConfig TradingRoutes.

Lemma updateDailyPnL_fields pnl isWin c :
  dailyLossLimit (updateDailyPnL pnl isWin c) = dailyLossLimit c /\
  isActive (updateDailyPnL pnl isWin c) = isActive c /\
  tradingHours (updateDailyPnL pnl isWin c) = tradingHours c /\
  tradesCount (dailyStats (updateDailyPnL pnl isWin c)) = S (tradesCount (dailyStats c)) /\
  currentPnL (dailyStats (updateDailyPnL pnl isWin c)) = currentPnL (dailyStats c) + pnl /\
  (emergencyStop c = true -> emergencyStop (updateDailyPnL pnl isWin c) = true) /\
  (emergencyStop c = true ->
   emergencyStopReason c = "Daily loss limit reached"%string ->
   emergencyStopReason (updateDailyPnL pnl isWin c) = "Daily loss limit reached"%string).
Proof.
  unfold updateDailyPnL. destruct (Js.geb _ _); simpl; repeat split; auto.
Qed.

Lemma updateDailyPnLs_app fills1 fills2 c :
  updateDailyPnLs (fills1 ++ fills2) c = updateDailyPnLs fills2 (updateDailyPnLs fills1 c).
Proof. unfold updateDailyPnLs. apply fold_left_app. Qed.

Lemma updateDailyPnLs_keep_stop fills : forall c,
  emergencyStop c = true ->
  emergencyStopReason c = "Daily loss limit reached"%string ->
  emergencyStop (updateDailyPnLs fills c) = true /\
  emergencyStopReason (updateDailyPnLs fills c) = "Daily loss limit reached"%string.
Proof.
  induction fills as [|[pnl isWin] fills IH]; intros c Hs Hr; simpl; [auto|].
  destruct (updateDailyPnL_fields pnl isWin c) as (_ & _ & _ & _ & _ & H1 & H2).
  apply IH; auto.
Qed.

(** X10. The breaker is sticky and fills are counted.  Over any run of
    fills through [updateDailyPnL] the day's trade count grows by the number
    of fills and the limit and [isActive] are never changed; an emergency stop
    that is set stays set through every fill, profits included; and when a
    fill takes the absolute value of the stored day's pnl to the limit, the
    stop, the reason 'Daily loss limit reached' and the capital conservation
    mode are set and stay set through every later fill. *)
Theorem fills_accumulate_and_breaker_sticks :
  forall (fills : list (Q * bool)) (c : TradingConfig.t),
    tradesCount (dailyStats (updateDailyPnLs fills c))
      = (tradesCount (dailyStats c) + List.length fills)%nat /\
    dailyLossLimit (updateDailyPnLs fills c) = dailyLossLimit c /\
    isActive (updateDailyPnLs fills c) = isActive c /\
    (emergencyStop c = true -> emergencyStop (updateDailyPnLs fills c) = true) /\
    (forall pnl isWin,
        dailyLossLimit c <= Qabs (currentPnL (dailyStats c) + pnl) ->
        emergencyStop (updateDailyPnLs ((pnl, isWin) :: fills) c) = true /\
        emergencyStopReason (updateDailyPnLs ((pnl, isWin) :: fills) c)
          = "Daily loss limit reached"%string /\
        capitalConservationMode (updateDailyPnLs ((pnl, isWin) :: fills) c) = true).
Proof.
  assert (Hrun : forall fills c,
            tradesCount (dailyStats (updateDailyPnLs fills c))
              = (tradesCount (dailyStats c) + List.length fills)%nat /\
            dailyLossLimit (updateDailyPnLs fills c) = dailyLossLimit c /\
            isActive (updateDailyPnLs fills c) = isActive c /\
            (emergencyStop c = true -> emergencyStop (updateDailyPnLs fills c) = true) /\
            (emergencyStop c = true -> capitalConservationMode c = true ->
             capitalConservationMode (updateDailyPnLs fills c) = true)).
  { induction fills as [|[pnl isWin] fills IH]; intro c.
    - simpl. repeat split; auto.
    - change (updateDailyPnLs ((pnl, isWin) :: fills) c)
        with (updateDailyPnLs fills (updateDailyPnL pnl isWin c)).
      destruct (updateDailyPnL_fields pnl isWin c) as (Hl & Ha & _ & Hn & _ & Hs & _).
      destruct (IH (updateDailyPnL pnl isWin c)) as (I1 & I2 & I3 & I4 & I5).
      rewrite I1, I2, I3, Hl, Ha, Hn. simpl List.length.
      split; [lia|]. split; [reflexivity|]. split; [reflexivity|].
      split; [intro H; apply I4, Hs, H|].
      intros H Hc. apply I5; [apply Hs, H|].
      unfold updateDailyPnL. destruct (Js.geb _ _); [reflexivity | exact Hc]. }
  intros fills c. destruct (Hrun fills c) as (H1 & H2 & H3 & H4 & _).
  split; [exact H1|]. split; [exact H2|]. split; [exact H3|]. split; [exact H4|].
  intros pnl isWin Hcap.
  change (updateDailyPnLs ((pnl, isWin) :: fills) c)
    with (updateDailyPnLs fills (updateDailyPnL pnl isWin c)).
  apply geb_true in Hcap.
  assert (Hs : emergencyStop (updateDailyPnL pnl isWin c) = true)
    by (unfold updateDailyPnL; rewrite Hcap; reflexivity).
  assert (Hr : emergencyStopReason (updateDailyPnL pnl isWin c)
               = "Daily loss limit reached"%string)
    by (unfold updateDailyPnL; rewrite Hcap; reflexivity).
  assert (Hm : capitalConservationMode (updateDailyPnL pnl isWin c) = true)
    by (unfold updateDailyPnL; rewrite Hcap; reflexivity).
  destruct (updateDailyPnLs_keep_stop fills _ Hs Hr) as [K1 K2].
  split; [exact K1|]. split; [exact K2|].
  exact (proj2 (proj2 (proj2 (proj2 (Hrun fills (updateDailyPnL pnl isWin c))))) Hs Hm).
Qed.

End ConfigFacts.

Section ConfigRoutes.
Import TradingConfig TradingRoutes.

Lemma fills_accumulate_and_breaker_sticks_witness :
  dailyLossLimit Scenario.configA
    <= Qabs (currentPnL (dailyStats Scenario.configA) + (-100)) /\
  emergencyStop (updateDailyPnLs ((-100, false) :: [(2000, true)])
                   Scenario.configA) = true /\
  emergencyStopReason (updateDailyPnLs ((-100, false) :: [(2000, true)])
                         Scenario.configA) = "Daily loss limit reached"%string /\
  capitalConservationMode (updateDailyPnLs ((-100, false) :: [(2000, true)])
                             Scenario.configA) = true.
Proof.
  assert (Hcap : dailyLossLimit Scenario.configA
                 <= Qabs (currentPnL (dailyStats Scenario.configA) + (-100))).
  { vm_compute. discriminate. }
  split; [exact Hcap|].
  exact (proj2 (proj2 (proj2 (proj2
           (fills_accumulate_and_breaker_sticks [(2000, true)] Scenario.configA))))
           (-100) false Hcap).
Defined.

Lemma isTradingAllowed_needs_both clk c :
  isTradingAllowed clk c = true -> emergencyStop c = false /\ isActive c = true.
Proof.
  unfold isTradingAllowed.
  destruct (emergencyStop c); [discriminate|].
  destruct (isActive c); [auto | discriminate].
Qed.

(** No request turns an inactive configuration active again. *)
Lemma handle_keeps_inactive clk r c :
  isActive c = false -> isActive (handle clk r c) = false.
Proof.
  intro H. destruct r as [hasKeys|reason|reason| |limit hours|pnl isWin]; simpl.
  - unfold startTrading. destruct hasKeys; simpl; [|exact H].
    destruct (isTradingAllowed clk c) eqn:E; simpl; [|exact H].
    apply isTradingAllowed_needs_both in E as [_ E]. congruence.
  - reflexivity.
  - reflexivity.
  - unfold TradingController.resetDailyStats.
    destruct (String.eqb _ _); exact H.
  - exact H.
  - rewrite (proj1 (proj2 (updateDailyPnL_fields pnl isWin c))). exact H.
Qed.

Lemma serve_keeps_inactive reqs : forall c,
  isActive c = false -> isActive (serve reqs c) = false.
Proof.
  induction reqs as [|[clk r] reqs IH]; intros c H; simpl; [exact H|].
  apply IH. apply handle_keeps_inactive. exact H.
Qed.

(** X11. Stopping is final for the trading routes.  After [stopTrading]
    or [emergencyStop], whatever sequence of start, stop, emergency-stop,
    daily-reset, configuration-update requests and fills is served, the
    configuration stays inactive, [isTradingAllowed] stays false and
    [startTrading] answers 400: [startTrading] only activates a configuration
    that [isTradingAllowed] already accepts, and that needs [isActive]. *)
Theorem stopped_config_cannot_be_restarted :
  forall (c : TradingConfig.t) (reason : option string)
         (reqs : list (Clock * Request)) (clk : Clock) (hasKeys : bool),
    (isActive (serve reqs (stopTrading reason c)) = false /\
     isTradingAllowed clk (serve reqs (stopTrading reason c)) = false /\
     fst (startTrading hasKeys clk (serve reqs (stopTrading reason c))) = BadRequest400) /\
    (isActive (serve reqs (TradingController.emergencyStop reason c)) = false /\
     isTradingAllowed clk (serve reqs (TradingController.emergencyStop reason c)) = false /\
     fst (startTrading hasKeys clk (serve reqs (TradingController.emergencyStop reason c)))
       = BadRequest400).
Proof.
  assert (H : forall c0 clk hasKeys, isActive c0 = false ->
            isActive c0 = false /\ isTradingAllowed clk c0 = false /\
            fst (startTrading hasKeys clk c0) = BadRequest400).
  { intros c0 clk hasKeys Hi.
    assert (Ha : isTradingAllowed clk c0 = false).
    { destruct (isTradingAllowed clk c0) eqn:E; [|reflexivity].
      apply isTradingAllowed_needs_both in E as [_ E]. congruence. }
    split; [exact Hi|]. split; [exact Ha|].
    unfold startTrading. rewrite Ha. destruct hasKeys; reflexivity. }
  intros c reason reqs clk hasKeys. split; apply H; apply serve_keeps_inactive; reflexivity.
Qed.

(** X12. [startTrading] never changes a flag: whatever it answers, the
    configuration afterwards has the same [isActive] and [emergencyStop] as
    before (a stop that is set is never lifted by it), and it answers 200
    only for a configuration that [isTradingAllowed] accepts and a user with
    both keys. *)
Theorem startTrading_changes_no_flag :
  forall (hasKeys : bool) (clk : Clock) (c : TradingConfig.t),
    isActive (snd (startTrading hasKeys clk c)) = isActive c /\
    emergencyStop (snd (startTrading hasKeys clk c)) = emergencyStop c /\
    dailyStats (snd (startTrading hasKeys clk c)) = dailyStats c /\
    (fst (startTrading hasKeys clk c) = Ok200
     <-> hasKeys = true /\ isTradingAllowed clk c = true).
Proof.
  intros hasKeys clk c. unfold startTrading.
  destruct hasKeys; simpl.
  - destruct (isTradingAllowed clk c) eqn:E; simpl.
    + apply isTradingAllowed_needs_both in E as [Es Ea].
      rewrite Es, Ea. repeat split; auto.
    + repeat split; auto; try discriminate. intros [_ H]. discriminate.
  - repeat split; auto; try discriminate. intros [H _]. discriminate.
Qed.

(** X13. The daily reset after a loss-limit trip.  Once a fill has taken
    the absolute value of the day's pnl to the limit, [isTradingAllowed] is
    false; the reset route then zeroes the day's statistics and lifts the
    stop, even one that was raised by hand before the trip (the trip
    overwrote its reason), and with an active configuration, a positive
    limit and no trading hours, trading is allowed again. *)
Theorem reset_after_loss_limit_trip c pnl isWin clk clk'
    (Htrip : dailyLossLimit c <= Qabs (currentPnL (dailyStats c) + pnl)) :
  isTradingAllowed clk (updateDailyPnL pnl isWin c) = false /\
  emergencyStop (TradingController.resetDailyStats clk' (updateDailyPnL pnl isWin c))
    = false /\
  tradesCount (dailyStats (TradingController.resetDailyStats clk'
                             (updateDailyPnL pnl isWin c))) = 0%nat /\
  (isActive c = true -> 0 < dailyLossLimit c -> enabled (tradingHours c) = false ->
   isTradingAllowed clk
     (TradingController.resetDailyStats clk' (updateDailyPnL pnl isWin c)) = true).
Proof.
  apply geb_true in Htrip.
  unfold updateDailyPnL. rewrite Htrip.
  unfold TradingController.resetDailyStats, TradingConfig.resetDailyStats. simpl.
  split; [reflexivity|]. split; [reflexivity|]. split; [reflexivity|].
  intros Ha Hl Hh. unfold isTradingAllowed. simpl. rewrite Ha, Hh. simpl.
  assert (E : Js.geb 0 (dailyLossLimit c) = false).
  { apply geb_false. exact Hl. }
  rewrite E. reflexivity.
Qed.

Lemma reset_after_loss_limit_trip_witness :
  isTradingAllowed Scenario.noon (updateDailyPnL (-100) false Scenario.configA) = false /\
  isTradingAllowed Scenario.noon
    (TradingController.resetDailyStats Scenario.noon
       (updateDailyPnL (-100) false Scenario.configA)) = true.
Proof.
  assert (Htrip : dailyLossLimit Scenario.configA
                  <= Qabs (currentPnL (dailyStats Scenario.configA) + (-100))).
  { vm_compute. discriminate. }
  destruct (reset_after_loss_limit_trip Scenario.configA (-100) false
              Scenario.noon Scenario.noon Htrip) as (H1 & _ & _ & H4).
  split; [exact H1|].
  apply H4; reflexivity.
Defined.

End ConfigRoutes.

(** ** Strategy statistics *)

Section StrategyStats.
Import Strategy.

Lemma nat_to_Q_pos n : 0 < nat_to_Q (S n).
Proof.
  unfold nat_to_Q. change 0 with (inject_Z 0). rewrite <- Zlt_Qlt. lia.
Qed.

Lemma nat_to_Q_le a b : (a <= b)%nat -> nat_to_Q a <= nat_to_Q b.
Proof. intro H. unfold nat_to_Q. rewrite <- Zle_Qle. lia. Qed.

Lemma updatePerformance_counters pnl s :
  totalTrades (updatePerformance pnl s) = S (totalTrades s) /\
  (winningTrades (updatePerformance pnl s) + losingTrades (updatePerformance pnl s)
   = S (winningTrades s + losingTrades s))%nat /\
  (consecutiveLosses s <= losingTrades s ->
   consecutiveLosses (updatePerformance pnl s) <= losingTrades (updatePerformance pnl s))%nat /\
  (0 < pnl -> consecutiveLosses (updatePerformance pnl s) = 0%nat) /\
  (pnl <= 0 -> consecutiveLosses (updatePerformance pnl s) = S (consecutiveLosses s)) /\
  totalPnL (updatePerformance pnl s) = totalPnL s + pnl /\
  winRate (updatePerformance pnl s)
    = nat_to_Q (winningTrades (updatePerformance pnl s))
      / nat_to_Q (totalTrades (updatePerformance pnl s)) * 100 /\
  avgPnL (updatePerformance pnl s)
    = totalPnL (updatePerformance pnl s)
      / nat_to_Q (totalTrades (updatePerformance pnl s)).
Proof.
  unfold updatePerformance, updateConfidenceScore, set_confidence. simpl.
  destruct (Js.gtb pnl 0) eqn:E; simpl.
  - repeat split; try reflexivity; try lia.
    intro H. apply gtb_true in E. exfalso. apply (Qlt_not_le _ _ E H).
  - repeat split; try reflexivity; try lia.
    intro H. apply gtb_true in H. congruence.
Qed.

(** X14. The statistics [updatePerformance] keeps.  After any non-empty
    run of trades, starting from a document whose wins and losses add up to
    its total: they still add up, the total has grown by the number of
    trades, the current streak of losses is at most the number of losses, the
    win rate is 100 * wins / total and lies between 0 and 100, and the
    average pnl times the total is the total pnl. *)
Theorem strategy_statistics_consistent :
  forall (pnls : list Q) (p : Q) (s : Strategy.t),
    (winningTrades s + losingTrades s = totalTrades s)%nat ->
    (consecutiveLosses s <= losingTrades s)%nat ->
    let s' := updatePerformances (p :: pnls) s in
    (winningTrades s' + losingTrades s' = totalTrades s')%nat /\
    totalTrades s' = (totalTrades s + S (List.length pnls))%nat /\
    (consecutiveLosses s' <= losingTrades s')%nat /\
    winRate s' == nat_to_Q (winningTrades s') / nat_to_Q (totalTrades s') * 100 /\
    0 <= winRate s' /\ winRate s' <= 100 /\
    avgPnL s' * nat_to_Q (totalTrades s') == totalPnL s'.
Proof.
  induction pnls as [|q pnls IH]; intros p s Hsum Hstreak.
  - cbv zeta. change (updatePerformances [p] s) with (updatePerformance p s).
    destruct (updatePerformance_counters p s)
      as (Ht & Hw & Hc & _ & _ & _ & Hr & Ha).
    specialize (Hc Hstreak).
    set (s1 := updatePerformance p s) in *.
    assert (Hwt : (winningTrades s1 <= totalTrades s1)%nat) by lia.
    assert (Hpos : 0 < nat_to_Q (totalTrades s1)).
    { rewrite Ht. apply nat_to_Q_pos. }
    pose proof (nat_to_Q_le _ _ Hwt) as Hle.
    pose proof (nat_to_Q_le 0 _ (Nat.le_0_l (winningTrades s1))) as H0.
    change (nat_to_Q 0) with 0 in H0.
    assert (Hne : ~ nat_to_Q (totalTrades s1) == 0).
    { intro E. rewrite E in Hpos. apply (Qlt_irrefl 0 Hpos). }
    split; [lia|]. split; [simpl; lia|]. split; [exact Hc|].
    rewrite Hr, Ha.
    split; [reflexivity|]. split; [|split].
    + apply Qmult_le_0_compat; [|discriminate].
      apply Qle_shift_div_l; [exact Hpos|]. rewrite Qmult_0_l. exact H0.
    + setoid_replace 100 with (1 * 100) at 2 by reflexivity.
      apply Qmult_le_compat_r; [|discriminate].
      apply Qle_shift_div_r; [exact Hpos|]. rewrite Qmult_1_l. exact Hle.
    + field. exact Hne.
  - destruct (updatePerformance_counters p s)
      as (Ht & Hw & Hc & _ & _ & _ & _ & _).
    assert (Hsum' : (winningTrades (updatePerformance p s)
                     + losingTrades (updatePerformance p s)
                     = totalTrades (updatePerformance p s))%nat) by lia.
    specialize (IH q (updatePerformance p s) Hsum' (Hc Hstreak)).
    change (updatePerformances (p :: q :: pnls) s)
      with (updatePerformances (q :: pnls) (updatePerformance p s)).
    cbv zeta in IH |- *.
    destruct IH as (I1 & I2 & I3 & I4 & I5 & I6 & I7).
    repeat split; try assumption.
    rewrite I2, Ht. simpl. lia.
Qed.

Lemma strategy_statistics_consistent_witness :
  winRate (updatePerformances [20; -5; 7] (fresh 50)) <= 100 /\
  totalTrades (updatePerformances [20; -5; 7] (fresh 50)) = 3%nat.
Proof.
  destruct (strategy_statistics_consistent [-5; 7] 20 (fresh 50) eq_refl (le_n 0))
    as (_ & H2 & _ & _ & _ & H6 & _).
  split; [exact H6 | exact H2].
Defined.

(** X15. The direction of the learning step through [updatePerformance].
    A winning trade never lowers a score of at most 95; a losing trade never
    raises a score of at least 5 and strictly lowers every score above 5; and
    a loss that makes it three or more in a row leaves max(5, 0.72 * c): the
    ten percent decay and the twenty percent penalty together. *)
Theorem learning_step_direction (pnl : Q) (s : Strategy.t) :
  (0 < pnl -> confidenceScore s <= 95 ->
   confidenceScore s <= confidenceScore (updatePerformance pnl s)) /\
  (pnl <= 0 -> 5 <= confidenceScore s ->
   confidenceScore (updatePerformance pnl s) <= confidenceScore s) /\
  (pnl <= 0 -> 5 < confidenceScore s ->
   confidenceScore (updatePerformance pnl s) < confidenceScore s) /\
  (pnl <= 0 -> (2 <= consecutiveLosses s)%nat ->
   confidenceScore (updatePerformance pnl s)
   == Qmax 5 ((72 # 100) * confidenceScore s)).
Proof.
  assert (Hloss : pnl <= 0 -> Js.gtb pnl 0 = false).
  { intro H. destruct (Js.gtb pnl 0) eqn:E; [|reflexivity].
    apply gtb_true in E. exfalso. apply (Qlt_not_le _ _ E H). }
  unfold updatePerformance, updateConfidenceScore, set_confidence,
    maxConfidence, minConfidence, learningRate. simpl.
  set (c := confidenceScore s).
  split; [|split; [|split]].
  - intros Hwin Hc. apply gtb_true in Hwin. rewrite Hwin. simpl.
    apply Q.min_glb; lra.
  - intros Hl Hc. rewrite (Hloss Hl). simpl.
    destruct (match consecutiveLosses s with
              | 0%nat | 1%nat => false | S (S _) => true end).
    + apply Q.max_lub; [exact Hc|].
      destruct (Q.max_spec 5 (c - (1 # 10) * c)) as [[_ E]|[_ E]]; rewrite E; lra.
    + apply Q.max_lub; lra.
  - intros Hl Hc. rewrite (Hloss Hl). simpl.
    destruct (match consecutiveLosses s with
              | 0%nat | 1%nat => false | S (S _) => true end).
    + apply Q.max_lub_lt; [exact Hc|].
      destruct (Q.max_spec 5 (c - (1 # 10) * c)) as [[_ E]|[_ E]]; rewrite E; lra.
    + apply Q.max_lub_lt; lra.
  - intros Hl Hs. rewrite (Hloss Hl). simpl.
    destruct (consecutiveLosses s) as [|[|n]]; [lia | lia |].
    destruct (Q.max_spec 5 ((72 # 100) * c)) as [[H4 E4]|[H4 E4]]; rewrite E4;
      destruct (Q.max_spec 5 (c - (1 # 10) * c)) as [[H1 E]|[H1 E]]; rewrite E.
    + destruct (Q.max_spec 5 ((c - (1 # 10) * c) * (8 # 10))) as [[H2 E2]|[H2 E2]];
        rewrite E2; lra.
    + destruct (Q.max_spec 5 (5 * (8 # 10))) as [[H2 E2]|[H2 E2]]; rewrite E2; lra.
    + destruct (Q.max_spec 5 ((c - (1 # 10) * c) * (8 # 10))) as [[H2 E2]|[H2 E2]];
        rewrite E2; lra.
    + destruct (Q.max_spec 5 (5 * (8 # 10))) as [[H2 E2]|[H2 E2]]; rewrite E2; lra.
Qed.

Lemma learning_step_direction_witness :
  confidenceScore (updatePerformance (-20) (mk 4 2 2 50 0 0 50 2))
  == Qmax 5 ((72 # 100) * confidenceScore (mk 4 2 2 50 0 0 50 2)).
Proof.
  apply (proj2 (proj2 (proj2 (learning_step_direction (-20) (mk 4 2 2 50 0 0 50 2))))).
  - discriminate.
  - simpl. lia.
Defined.

End StrategyStats.

(** ** AI signals *)

Section AIFacts.
Import Model TradingService Engine.

Lemma executeTrade_returned_labels env user sg w t w' :
  executeTrade env user sg w = (Returned t, w') ->
  pnl t = 0 /\ strategy t = "webhook_signal"%string /\ confidenceScore t = 75 /\
  userId t = _id user.
Proof.
  intro H.
  destruct (resolvePrice_returns env sg w) as (p & w1 & E & _).
  unfold executeTrade, bind in H. rewrite E in H.
  unfold create in H.
  destruct (validSide (s_side sg) && validType (typeOrMarket sg)
            && negb (isNaN (orNumber (s_quantity sg) (calculatePositionSize user p)))
            && negb (isNaN p)); [|discriminate].
  unfold bind, gets, modify, ret in H. simpl in H.
  destruct (negb (paperTradingMode user) && deltaConnected user).
  - unfold tryCatch, bind, executeDeltaOrder in H.
    destruct (truthyStr (deltaApiKey user) && truthyStr (deltaApiSecret user)).
    + unfold request, modify, bind, throw, ret, save in H. simpl in H.
      match type of H with context [placeOrder env ?t0] =>
        destruct (placeOrder env t0) end; simpl in H; [|discriminate].
      injection H as <- _. simpl. auto.
    + unfold throw, save, modify, bind in H. simpl in H. discriminate.
  - unfold save, modify, bind, ret in H. simpl in H.
    injection H as <- _. simpl. auto.
Qed.

Lemma find_snoc_none {A} (p : A -> bool) l a :
  find p l = None -> p a = true -> find p (l ++ [a]) = Some a.
Proof.
  induction l as [|b l IH]; simpl; intros H Ha.
  - rewrite Ha. reflexivity.
  - destruct (p b); [discriminate|]. apply IH; assumption.
Qed.

Lemma isDoc_true uid name d :
  isDoc uid name d = true -> d_userId d = uid /\ d_strategyName d = name.
Proof.
  unfold isDoc. intro H. apply andb_true_iff in H as [H1 H2].
  split; [apply Nat.eqb_eq; exact H1 | apply String.eqb_eq; exact H2].
Qed.

Lemma isDoc_refl uid name st : isDoc uid name (mkDoc uid name st) = true.
Proof.
  unfold isDoc. simpl. rewrite Nat.eqb_refl, String.eqb_refl. reflexivity.
Qed.

(** The state a strategy is read with: its document's, or a fresh one at
    50. *)
Lemma processAISignal_returned env ai user sig store w t store' w' :
  processAISignal env ai user sig store w = (inr t, store', w') ->
  ai (a_strategy sig) = true /\
  executeTrade env user (a_signal sig) w = (Returned t, w') /\
  exists st,
    st = match find (isDoc (_id user) (a_strategy sig)) store with
         | Some d => d_state d
         | None => Strategy.fresh 50
         end /\
    30 <= Strategy.confidenceScore st /\
    find (isDoc (_id user) (a_strategy sig)) store'
    = Some (mkDoc (_id user) (a_strategy sig) (Strategy.updatePerformance 0 st)).
Proof.
  unfold processAISignal. intro H.
  destruct (ai (a_strategy sig)); simpl in H; [|discriminate].
  split; [reflexivity|].
  set (p := isDoc (_id user) (a_strategy sig)) in *.
  destruct (find p store) as [d|] eqn:Ef.
  - destruct (gtb 30 (Strategy.confidenceScore (d_state d))) eqn:Eg; [discriminate|].
    destruct (executeTrade env user (a_signal sig) w) as [[t'|e] w1] eqn:Ex;
      [|discriminate].
    injection H as <- <- <-. split; [reflexivity|].
    exists (d_state d). split; [reflexivity|]. split.
    + destruct (Qlt_le_dec (Strategy.confidenceScore (d_state d)) 30) as [Hlt|Hle];
        [|exact Hle].
      apply gtb_true in Hlt. congruence.
    + rewrite find_updateFirst.
      * rewrite Ef. simpl.
        destruct (isDoc_true _ _ _ (proj2 (find_some _ _ Ef))) as [-> ->].
        destruct (executeTrade_returned_labels _ _ _ _ _ _ Ex) as [-> _].
        reflexivity.
      * intros x _.
        destruct (isDoc_true _ _ _ (proj2 (find_some _ _ Ef))) as [-> ->].
        apply isDoc_refl.
  - simpl in H.
    destruct (executeTrade env user (a_signal sig) w) as [[t'|e] w1] eqn:Ex;
      [|discriminate].
    injection H as <- <- <-. split; [reflexivity|].
    exists (Strategy.fresh 50). split; [reflexivity|]. split; [discriminate|].
    rewrite find_updateFirst by (intros x _; apply isDoc_refl).
    rewrite (find_snoc_none p store _ Ef (isDoc_refl _ _ _)). simpl.
    destruct (executeTrade_returned_labels _ _ _ _ _ _ Ex) as [-> _].
    reflexivity.
Qed.

Lemma loss_from_30_decays c s :
  30 <= Strategy.confidenceScore s -> c = Strategy.confidenceScore s ->
  Strategy.confidenceScore (Strategy.updatePerformance 0 s) <= (9 # 10) * c.
Proof.
  intros H ->.
  unfold Strategy.updatePerformance, Strategy.updateConfidenceScore,
    Strategy.set_confidence, Strategy.maxConfidence, Strategy.minConfidence,
    Strategy.learningRate. simpl.
  set (c := Strategy.confidenceScore s) in *.
  assert (E : Qmax 5 (c - (1 # 10) * c) == c - (1 # 10) * c).
  { apply Q.max_r. lra. }
  destruct (match Strategy.consecutiveLosses s with
            | 0%nat | 1%nat => false | S (S _) => true end).
  - apply Q.max_lub; [lra|]. rewrite E. lra.
  - rewrite E. lra.
Qed.

(** X16. Every executed AI signal is booked against its strategy as a
    loss.  When [processAISignal] returns a trade, the strategy was enabled
    and stored with a confidence of at least 30 (50 when it had no document);
    the trade carries pnl 0, the strategy name 'webhook_signal' and the
    confidence 75 whatever the strategy; and the confidence stored afterwards
    is at most nine tenths of what it was. *)
Theorem executed_ai_signal_lowers_confidence env ai user sig store w t store' w'
    (Hrun : processAISignal env ai user sig store w = (inr t, store', w')) :
  ai (a_strategy sig) = true /\
  pnl t = 0 /\ strategy t = "webhook_signal"%string /\ confidenceScore t = 75 /\
  30 <= storedConfidence (_id user) (a_strategy sig) store /\
  storedConfidence (_id user) (a_strategy sig) store'
    <= (9 # 10) * storedConfidence (_id user) (a_strategy sig) store.
Proof.
  destruct (processAISignal_returned _ _ _ _ _ _ _ _ _ Hrun)
    as (Hai & Hex & st & Hst & H30 & Hfind).
  destruct (executeTrade_returned_labels _ _ _ _ _ _ Hex) as (Hp & Hs & Hc & _).
  split; [exact Hai|]. split; [exact Hp|]. split; [exact Hs|]. split; [exact Hc|].
  unfold storedConfidence. rewrite Hfind. simpl.
  assert (Hold : match find (isDoc (_id user) (a_strategy sig)) store with
                 | Some d => Strategy.confidenceScore (d_state d)
                 | None => 50
                 end = Strategy.confidenceScore st).
  { rewrite Hst. destruct (find _ store); reflexivity. }
  rewrite Hold. split; [exact H30|].
  apply loss_from_30_decays; [exact H30 | reflexivity].
Qed.

Lemma executed_ai_signal_lowers_confidence_witness :
  storedConfidence 7 "momentum"
    (snd (fst (processAISignal Scenario.deadExchange (fun _ => true)
                 Scenario.paperUser (mkAI "momentum" Scenario.bigSignal)
                 [] Scenario.emptyWorld)))
  <= (9 # 10) * storedConfidence 7 "momentum" [].
Proof.
  refine (proj2 (proj2 (proj2 (proj2 (proj2
            (executed_ai_signal_lowers_confidence Scenario.deadExchange
               (fun _ => true) Scenario.paperUser
               (mkAI "momentum" Scenario.bigSignal) [] Scenario.emptyWorld
               _ _ _ _)))))).
  vm_compute. reflexivity.
Defined.

(** X17. A new strategy is locked out after three executed AI signals.
    Starting without a document for the strategy, once three AI signals of a
    user have been executed for it (50, 45, 40.5, then 29.16 with the penalty
    of the third loss in a row), the next one is refused with 'Strategy
    confidence too low' and changes neither the strategies, nor the trades,
    nor the exchange log. *)
Theorem new_strategy_locked_after_three_signals
    env uid name store0 w0
    ai1 u1 sg1 t1 store1 w1 ai2 u2 sg2 t2 store2 w2
    ai3 u3 sg3 t3 store3 w3 ai4 u4 sg4
    (Hnew : find (isDoc uid name) store0 = None)
    (Hids : _id u1 = uid /\ _id u2 = uid /\ _id u3 = uid /\ _id u4 = uid)
    (Hai : ai4 name = true)
    (R1 : processAISignal env ai1 u1 (mkAI name sg1) store0 w0 = (inr t1, store1, w1))
    (R2 : processAISignal env ai2 u2 (mkAI name sg2) store1 w1 = (inr t2, store2, w2))
    (R3 : processAISignal env ai3 u3 (mkAI name sg3) store2 w2 = (inr t3, store3, w3)) :
  storedConfidence uid name store3 == 2916 # 100 /\
  processAISignal env ai4 u4 (mkAI name sg4) store3 w3 = (inl ConfidenceTooLow, store3, w3).
Proof.
  destruct Hids as (I1 & I2 & I3 & I4).
  destruct (processAISignal_returned _ _ _ _ _ _ _ _ _ R1) as (_ & _ & st1 & E1 & _ & F1).
  simpl in E1, F1. rewrite I1 in E1, F1. rewrite Hnew in E1. subst st1.
  destruct (processAISignal_returned _ _ _ _ _ _ _ _ _ R2) as (_ & _ & st2 & E2 & _ & F2).
  simpl in E2, F2. rewrite I2 in E2, F2. rewrite F1 in E2. simpl in E2. subst st2.
  destruct (processAISignal_returned _ _ _ _ _ _ _ _ _ R3) as (_ & _ & st3 & E3 & _ & F3).
  simpl in E3, F3. rewrite I3 in E3, F3. rewrite F2 in E3. simpl in E3. subst st3.
  split.
  - unfold storedConfidence. rewrite F3. vm_compute. reflexivity.
  - unfold processAISignal. simpl a_strategy. rewrite Hai, I4, F3. reflexivity.
Qed.

Lemma new_strategy_locked_after_three_signals_witness :
  exists store3 w3,
    storedConfidence 7 "momentum" store3 == 2916 # 100 /\
    processAISignal Scenario.deadExchange (fun _ => true) Scenario.paperUser
      (mkAI "momentum" Scenario.bigSignal) store3 w3
    = (inl ConfidenceTooLow, store3, w3).
Proof.
  eexists. eexists.
  refine (new_strategy_locked_after_three_signals Scenario.deadExchange 7 "momentum"
            [] Scenario.emptyWorld
            (fun _ => true) Scenario.paperUser Scenario.bigSignal _ _ _
            (fun _ => true) Scenario.paperUser Scenario.marketSignal _ _ _
            (fun _ => true) Scenario.paperUser Scenario.bigSignal _ _ _
            (fun _ => true) Scenario.paperUser Scenario.bigSignal
            eq_refl (conj eq_refl (conj eq_refl (conj eq_refl eq_refl))) eq_refl
            _ _ _).
  - vm_compute. reflexivity.
  - vm_compute. reflexivity.
  - vm_compute. reflexivity.
Defined.

End AIFacts.

(** ** Pnl of a trade, coin settings, malformed signals *)

Section PnLFacts.
Import Model TradePnL.

(** X18. [calculatePnL] on a trade with finite price, executed price and
    quantity.  A trade that is not FILLED, or whose executed price is not
    positive, keeps its stored pnl.  A FILLED trade executed at its own
    (positive) price, as every simulated fill is, gets minus its fees
    whatever the side and the quantity, so it is never a win when fees are
    not negative.  Any side other than 'BUY' is computed as a sell. *)
Theorem calculatePnL_cases (t : Trade) (p e q : Q)
    (Hp : price t = Finite p) (He : executedPrice t = Finite e)
    (Hq : quantity t = Finite q) :
  (status t <> FILLED \/ e <= 0 -> calculatePnL t = Finite (pnl t)) /\
  (status t = FILLED -> 0 < e -> e == p ->
   exists v, calculatePnL t = Finite v /\ v == - fees t) /\
  (status t = FILLED -> 0 < e ->
   exists v, calculatePnL t = Finite v /\
     v == (e - p) * q * (if String.eqb (side t) "BUY" then 1 else -1) - fees t).
Proof.
  unfold calculatePnL. rewrite Hp, He, Hq. simpl.
  split; [|split].
  - intros [Hs | Hle].
    + destruct (status t); try reflexivity. congruence.
    + assert (E : gtb e 0 = false).
      { destruct (gtb e 0) eqn:G; [|reflexivity].
        apply gtb_true in G. exfalso. apply (Qlt_not_le _ _ G Hle). }
      rewrite E, andb_false_r. reflexivity.
  - intros Hs Hpos Heq. rewrite Hs. apply gtb_true in Hpos. rewrite Hpos. simpl.
    eexists. split; [reflexivity|]. rewrite Heq. ring.
  - intros Hs Hpos. rewrite Hs. apply gtb_true in Hpos. rewrite Hpos. simpl.
    eexists. split; [reflexivity|].
    destruct (String.eqb (side t) "BUY"); reflexivity.
Qed.

Lemma calculatePnL_cases_witness :
  exists v,
    calculatePnL
      (mkTrade 0 7 "BTCUSDT" "SELL" "MARKET" (Finite 2) (Finite 50000)
               (Finite 50000) FILLED "" "webhook_signal" 75 0 (3 # 2) true 0)
    = Finite v /\
    v == - fees (mkTrade 0 7 "BTCUSDT" "SELL" "MARKET" (Finite 2) (Finite 50000)
                         (Finite 50000) FILLED "" "webhook_signal" 75 0 (3 # 2) true 0).
Proof.
  apply (proj1 (proj2 (calculatePnL_cases
                  (mkTrade 0 7 "BTCUSDT" "SELL" "MARKET" (Finite 2) (Finite 50000)
                           (Finite 50000) FILLED "" "webhook_signal" 75 0 (3 # 2) true 0)
                  50000 50000 2 eq_refl eq_refl eq_refl))).
  - reflexivity.
  - reflexivity.
  - reflexivity.
Defined.

End PnLFacts.

Section CoinFacts.
Import CoinConfigs.

Lemma isFor_other sym other c :
  other <> sym -> isFor sym c = true -> isFor other c = false.
Proof.
  unfold isFor. intros Hne H. apply String.eqb_eq in H.
  apply String.eqb_neq. congruence.
Qed.

Lemma find_updateFirst_other (sym other : string) f l :
  other <> sym -> (forall c, symbol (f c) = symbol c) ->
  find (isFor other) (TradingService.updateFirst (isFor sym) f l)
  = find (isFor other) l.
Proof.
  intros Hne Hf. induction l as [|c l IH]; simpl; [reflexivity|].
  destruct (isFor sym c) eqn:E; simpl.
  - rewrite (isFor_other sym other c Hne E).
    assert (E' : isFor other (f c) = false).
    { apply (isFor_other sym other); [exact Hne|].
      unfold isFor in *. rewrite Hf. exact E. }
    rewrite E'. reflexivity.
  - rewrite IH. reflexivity.
Qed.

Lemma find_isFor_none sym l : existsb (isFor sym) l = false -> find (isFor sym) l = None.
Proof.
  induction l as [|c l IH]; simpl; [reflexivity|].
  destruct (isFor sym c); simpl; [discriminate | exact IH].
Qed.

Lemma find_isFor_some sym l :
  existsb (isFor sym) l = true -> exists c, find (isFor sym) l = Some c.
Proof.
  induction l as [|c l IH]; simpl; [discriminate|].
  destruct (isFor sym c); simpl; [eexists; reflexivity | exact IH].
Qed.

Lemma find_append {A} (p : A -> bool) l l' :
  find p (l ++ l') = match find p l with Some x => Some x | None => find p l' end.
Proof.
  induction l as [|a l IH]; simpl; [reflexivity|].
  destruct (p a); [reflexivity | exact IH].
Qed.

Lemma length_updateFirst {A} (p : A -> bool) f (l : list A) :
  List.length (TradingService.updateFirst p f l) = List.length l.
Proof.
  induction l as [|a l IH]; simpl; [reflexivity|].
  destruct (p a); simpl; [reflexivity | rewrite IH; reflexivity].
Qed.

(** The in-memory change, read back. *)
Lemma applyCoinUpdate_lookup :
  forall (sym : string) (u : CoinUpdate) (coinConfigs : list CoinConfig),
    enabled (getCoinConfig sym (applyCoinUpdate sym u coinConfigs))
      = valueOr (u_enabled u) (enabled (getCoinConfig sym coinConfigs)) /\
    (forall other, other <> sym ->
       getCoinConfig other (applyCoinUpdate sym u coinConfigs)
       = getCoinConfig other coinConfigs) /\
    (existsb (isFor sym) coinConfigs = true ->
       List.length (applyCoinUpdate sym u coinConfigs) = List.length coinConfigs /\
       maxPositionSize (getCoinConfig sym (applyCoinUpdate sym u coinConfigs))
       = valueOr (u_maxPositionSize u) (maxPositionSize (getCoinConfig sym coinConfigs))) /\
    (existsb (isFor sym) coinConfigs = false ->
       List.length (applyCoinUpdate sym u coinConfigs) = S (List.length coinConfigs) /\
       maxPositionSize (getCoinConfig sym (applyCoinUpdate sym u coinConfigs))
       = numberOr (u_maxPositionSize u) (5 # 100)).
Proof.
  intros sym u l. unfold applyCoinUpdate, getCoinConfig.
  destruct (existsb (isFor sym) l) eqn:Ex.
  - destruct (find_isFor_some sym l Ex) as [c Hc].
    assert (Hfind : forall f, (forall x, symbol (f x) = symbol x) ->
              find (isFor sym) (TradingService.updateFirst (isFor sym) f l) = Some (f c)).
    { intros f Hf. rewrite find_updateFirst.
      - rewrite Hc. reflexivity.
      - intros x Hx. unfold isFor in *. rewrite Hf. exact Hx. }
    rewrite Hfind by reflexivity. rewrite Hc. simpl.
    split; [reflexivity|]. split; [|split].
    + intros other Hne. rewrite find_updateFirst_other; auto.
    + intros _. split; [apply length_updateFirst | reflexivity].
    + discriminate.
  - pose proof (find_isFor_none sym l Ex) as Hn.
    assert (Hnew : forall c, isFor sym c = true ->
              find (isFor sym) (l ++ [c]) = Some c).
    { intros c Hc. induction l as [|a l IH]; simpl.
      - rewrite Hc. reflexivity.
      - simpl in Ex, Hn. destruct (isFor sym a); [discriminate|].
        apply IH; assumption. }
    rewrite Hnew by (unfold isFor; simpl; apply String.eqb_refl).
    rewrite Hn. simpl.
    split; [reflexivity|]. split; [|split].
    + intros other Hne. rewrite find_append.
      destruct (find (isFor other) l); [reflexivity|]. simpl.
      assert (E : isFor other (mkCoin sym (valueOr (u_enabled u) true)
                    (numberOr (u_maxPositionSize u) (5 # 100))
                    (numberOr (u_stopLossPercentage u) (2 # 100))
                    (numberOr (u_takeProfitPercentage u) (4 # 100))
                    (stringOr (u_customRules u) "")) = false).
      { unfold isFor. simpl. apply String.eqb_neq. congruence. }
      rewrite E. reflexivity.
    + discriminate.
    + intros _. split; [|reflexivity]. rewrite length_app. simpl. lia.
Qed.


Lemma forallb_In_false {A} (f : A -> bool) l x :
  In x l -> f x = false -> forallb f l = false.
Proof.
  intros Hin Hf. destruct (forallb f l) eqn:E; [|reflexivity].
  rewrite forallb_forall in E. rewrite (E x Hin) in Hf. discriminate.
Qed.

(** X19. Updating one coin and reading it back.  [updateCoinConfig] stores
    the change only when the saved document validates: every entry must
    have a symbol and a [maxPositionSize] in [0.01, 0.2], otherwise the answer is 500 and
    nothing is stored.  When it is stored, [getCoinConfig] of the symbol has
    the [enabled] flag that was sent, or the one it had (true for a coin never
    configured), and a position size within [0.01, 0.2]: the one sent, or the
    one it had, or 0.05 for a new coin sent without one; the settings of every
    other symbol read as before; and the list keeps its length when the coin
    was there and grows by one entry otherwise.  A position size outside the range sent for a coin that is
    there is refused; a size of zero sent for a new coin is replaced by 0.05
    and stored. *)
Theorem updateCoinConfig_then_getCoinConfig :
  forall (others : bool) (sym : string) (u : CoinUpdate)
         (coinConfigs : list CoinConfig),
    (forall stored,
        updateCoinConfig others sym u coinConfigs = Some stored ->
        others = true /\ forallb validCoin stored = true /\
        enabled (getCoinConfig sym stored)
          = valueOr (u_enabled u) (enabled (getCoinConfig sym coinConfigs)) /\
        (forall other, other <> sym ->
           getCoinConfig other stored = getCoinConfig other coinConfigs) /\
        maxPositionSize (getCoinConfig sym stored)
          = (if existsb (isFor sym) coinConfigs
             then valueOr (u_maxPositionSize u)
                          (maxPositionSize (getCoinConfig sym coinConfigs))
             else numberOr (u_maxPositionSize u) (5 # 100)) /\
        1 # 100 <= maxPositionSize (getCoinConfig sym stored) <= 2 # 10 /\
        List.length stored
          = (if existsb (isFor sym) coinConfigs
             then List.length coinConfigs else S (List.length coinConfigs))) /\
    (forall q,
        existsb (isFor sym) coinConfigs = true ->
        u_maxPositionSize u = Some q ->
        Js.geb q (1 # 100) && Js.leb q (2 # 10) = false ->
        updateCoinConfig others sym u coinConfigs = None) /\
    (existsb (isFor sym) coinConfigs = false ->
     sym <> ""%string ->
     forallb validCoin coinConfigs = true ->
     numberOr (u_maxPositionSize u) (5 # 100) = 5 # 100 ->
     exists stored,
       updateCoinConfig true sym u coinConfigs = Some stored /\
       maxPositionSize (getCoinConfig sym stored) = 5 # 100).
Proof.
  intros others sym u l.
  destruct (applyCoinUpdate_lookup sym u l) as (He & Ho & Hthere & Hnew).
  split; [|split].
  - intros stored H. unfold updateCoinConfig in H.
    destruct others; simpl in H; [|discriminate].
    destruct (forallb validCoin (applyCoinUpdate sym u l)) eqn:Ev; [|discriminate].
    injection H as <-.
    split; [reflexivity|]. split; [exact Ev|]. split; [exact He|]. split; [exact Ho|].
    split; [|split].
    + destruct (existsb (isFor sym) l) eqn:Ex.
      * exact (proj2 (Hthere eq_refl)).
      * exact (proj2 (Hnew eq_refl)).
    + unfold getCoinConfig.
      destruct (find (isFor sym) (applyCoinUpdate sym u l)) as [c'|] eqn:Hc'.
      * pose proof (proj1 (forallb_forall _ _) Ev c' (proj1 (find_some _ _ Hc'))) as Hv.
        unfold validCoin in Hv.
        apply andb_true_iff in Hv. destruct Hv as [_ Hv].
        apply andb_true_iff in Hv. destruct Hv as [Hlo Hhi].
        split; [apply geb_true; exact Hlo | apply leb_true; exact Hhi].
      * simpl. split; unfold Qle; simpl; lia.
    + destruct (existsb (isFor sym) l) eqn:Ex.
      * exact (proj1 (Hthere eq_refl)).
      * exact (proj1 (Hnew eq_refl)).
  - intros q Ex Hq Hbad. unfold updateCoinConfig.
    assert (Ev : forallb validCoin (applyCoinUpdate sym u l) = false).
    { destruct (find_isFor_some sym l Ex) as [c Hc].
      pose proof (proj2 (Hthere Ex)) as Hsize.
      unfold getCoinConfig in Hsize. rewrite Hc, Hq in Hsize. simpl in Hsize.
      destruct (find (isFor sym) (applyCoinUpdate sym u l)) as [c'|] eqn:Hc'.
      - apply (forallb_In_false validCoin _ c').
        + exact (proj1 (find_some _ _ Hc')).
        + unfold validCoin. rewrite Hsize, Hbad. apply andb_false_r.
      - exfalso. unfold applyCoinUpdate in Hc'. rewrite Ex in Hc'.
        rewrite find_updateFirst in Hc'.
        + rewrite Hc in Hc'. discriminate.
        + intros x Hx. exact Hx. }
    rewrite Ev, andb_false_r. reflexivity.
  - intros Ex Hsym Hvalid Hsize.
    pose proof (proj2 (Hnew Ex)) as Hread. rewrite Hsize in Hread.
    unfold updateCoinConfig.
    assert (Ev : forallb validCoin (applyCoinUpdate sym u l) = true).
    { unfold applyCoinUpdate. rewrite Ex. rewrite forallb_app, Hvalid. simpl.
      unfold validCoin. simpl. rewrite Hsize.
      apply String.eqb_neq in Hsym. rewrite Hsym. reflexivity. }
    rewrite Ev. simpl. eexists. split; [reflexivity | exact Hread].
Qed.

End CoinFacts.

Section FormatFacts.
Import Js Model TradingService WebhookBody.





End FormatFacts.

Section MoreWitnesses.
Import Model TradingService CoinConfigs WebhookBody.

Lemma updateCoinConfig_then_getCoinConfig_witness :
  updateCoinConfig true "BTC" (mkUpdate (Some false) (Some 0) None None None)
    [mkCoin "BTC" true (5 # 100) (2 # 100) (4 # 100) ""] = None /\
  exists stored,
    updateCoinConfig true "ETH" (mkUpdate (Some false) (Some 0) None None None)
      [mkCoin "BTC" true (5 # 100) (2 # 100) (4 # 100) ""] = Some stored /\
    maxPositionSize (getCoinConfig "ETH" stored) = 5 # 100.
Proof.
  split.
  - exact (proj1 (proj2 (updateCoinConfig_then_getCoinConfig true "BTC"
             (mkUpdate (Some false) (Some 0) None None None)
             [mkCoin "BTC" true (5 # 100) (2 # 100) (4 # 100) ""]))
             0 eq_refl eq_refl eq_refl).
  - exact (proj2 (proj2 (updateCoinConfig_then_getCoinConfig true "ETH"
             (mkUpdate (Some false) (Some 0) None None None)
             [mkCoin "BTC" true (5 # 100) (2 # 100) (4 # 100) ""]))
             eq_refl ltac:(discriminate) eq_refl eq_refl).
Defined.


End MoreWitnesses.

(** ** The save hook and the symbol on the trade *)

Section HookFacts.
Import Model TradingService Engine.

Lemma save_users env t w :
  status t = FILLED ->
  users (snd (save env t w))
  = updateFirst (fun u => (_id u =? userId t)%nat)
                (fun u => applyFill t u (now env)) (users w).
Proof. intro H. unfold save, modify. simpl. rewrite H. reflexivity. Qed.

(** X21. The save hook counts saves, not trades.  Every [save] of a FILLED
    trade adds one to the owner's stored [totalTrades] and the trade's pnl to
    the stored totals, so saving the same FILLED trade twice books it twice;
    a save of a trade in any other status leaves the users as they are. *)
Theorem save_hook_counts_every_save env t w u
    (Hfound : findUser (userId t) w = Some u) :
  (status t <> FILLED -> users (snd (save env t w)) = users w) /\
  (status t = FILLED ->
   exists u1 u2,
     findUser (userId t) (snd (save env t w)) = Some u1 /\
     totalTrades u1 = S (totalTrades u) /\
     totalPnL u1 == totalPnL u + pnl t /\
     findUser (userId t) (snd (save env t (snd (save env t w)))) = Some u2 /\
     totalTrades u2 = S (S (totalTrades u)) /\
     totalPnL u2 == totalPnL u + pnl t + pnl t /\
     dailyPnL u2 == dailyPnL u + pnl t + pnl t).
Proof.
  split.
  - intro H. unfold save, modify. simpl.
    destruct (status t); try reflexivity. congruence.
  - intro H.
    assert (Hstep : forall w0 u0, findUser (userId t) w0 = Some u0 ->
              findUser (userId t) (snd (save env t w0))
              = Some (applyFill t u0 (now env))).
    { intros w0 u0 Hf. unfold findUser in *. rewrite (save_users env t w0 H).
      rewrite find_updateFirst by (intros x Hx; exact Hx).
      rewrite Hf. reflexivity. }
    exists (applyFill t u (now env)),
           (applyFill t (applyFill t u (now env)) (now env)).
    rewrite (Hstep w u Hfound).
    rewrite (Hstep _ _ (Hstep w u Hfound)). simpl.
    repeat split; reflexivity.
Qed.

Lemma save_hook_counts_every_save_witness :
  exists u1 u2,
    findUser 7 (snd (save Scenario.deadExchange Scenario.profitableTrade
                       Scenario.profitableWorld)) = Some u1 /\
    totalTrades u1 = 1%nat /\
    totalPnL u1 == totalPnL Scenario.paperUser + 1500 /\
    findUser 7 (snd (save Scenario.deadExchange Scenario.profitableTrade
                       (snd (save Scenario.deadExchange Scenario.profitableTrade
                               Scenario.profitableWorld)))) = Some u2 /\
    totalTrades u2 = 2%nat /\
    totalPnL u2 == totalPnL Scenario.paperUser + 1500 + 1500 /\
    dailyPnL u2 == dailyPnL Scenario.paperUser + 1500 + 1500.
Proof.
  exact (proj2 (save_hook_counts_every_save Scenario.deadExchange
                  Scenario.profitableTrade Scenario.profitableWorld
                  Scenario.paperUser eq_refl) eq_refl).
Defined.

Lemma executeTrade_returned_symbol env user sg w t w' :
  executeTrade env user sg w = (Returned t, w') ->
  symbol t = pairOf (s_symbol sg).
Proof.
  intro H.
  destruct (resolvePrice_returns env sg w) as (p & w1 & E & _).
  unfold executeTrade, bind in H. rewrite E in H.
  unfold create in H.
  destruct (validSide (s_side sg) && validType (typeOrMarket sg)
            && negb (isNaN (orNumber (s_quantity sg) (calculatePositionSize user p)))
            && negb (isNaN p)); [|discriminate].
  unfold bind, gets, modify, ret in H. simpl in H.
  destruct (negb (paperTradingMode user) && deltaConnected user).
  - unfold tryCatch, bind, executeDeltaOrder in H.
    destruct (truthyStr (deltaApiKey user) && truthyStr (deltaApiSecret user)).
    + unfold request, modify, bind, throw, ret, save in H. simpl in H.
      match type of H with context [placeOrder env ?t0] =>
        destruct (placeOrder env t0) end; simpl in H; [|discriminate].
      injection H as <- _. reflexivity.
    + unfold throw, save, modify, bind in H. simpl in H. discriminate.
  - unfold save, modify, bind, ret in H. simpl in H.
    injection H as <- _. reflexivity.
Qed.

(** X22. The symbol goes round.  For a JSON payload whose symbol is a
    base without "USDT" followed by "USDT", the parsed signal carries the
    base (so it is the base that the user's coin list must hold), and every
    trade execution returns for it carries the symbol as it was sent. *)
Theorem symbol_suffix_round_trip (o : Payload) (b : string)
    (Hsym : p_symbol o = Some (b ++ "USDT")%string)
    (Hbase : includes "USDT" b = false) :
  exists parsed,
    parseSignal (Object o) = Some parsed /\
    s_symbol parsed = Some b /\
    (forall coins, includesCoin coins (s_symbol parsed) = existsb (String.eqb b) coins) /\
    (forall env user w t w',
        executeTrade env user parsed w = (Returned t, w') ->
        symbol t = (b ++ "USDT")%string).
Proof.
  unfold parseSignal. rewrite Hsym. cbn [option_map].
  rewrite (normalizeSymbol_strips_suffix b Hbase).
  eexists. split; [reflexivity|]. cbn [s_symbol].
  split; [reflexivity|]. split; [reflexivity|].
  intros env user w t w' H.
  rewrite (executeTrade_returned_symbol _ _ _ _ _ _ H). reflexivity.
Qed.

Lemma symbol_suffix_round_trip_witness :
  exists parsed,
    parseSignal Scenario.buyBTC = Some parsed /\
    s_symbol parsed = Some "BTC"%string /\
    (forall coins, includesCoin coins (s_symbol parsed)
                   = existsb (String.eqb "BTC") coins) /\
    (forall env user w t w',
        executeTrade env user parsed w = (Returned t, w') ->
        symbol t = ("BTC" ++ "USDT")%string).
Proof.
  exact (symbol_suffix_round_trip
           (mkPayload (Some "BTCUSDT"%string) (Some "buy"%string) None
                      (Some 50000) None None)
           "BTC" eq_refl eq_refl).
Defined.

End HookFacts.

(** ** The report's loops *)

Section MetricsFacts.
Import Metrics.

Lemma gtb_false a b : Js.gtb a b = false <-> a <= b.
Proof.
  split; intro H.
  - destruct (Qlt_le_dec b a) as [Hlt|Hle]; [|exact Hle].
    apply gtb_true in Hlt. congruence.
  - destruct (Js.gtb a b) eqn:E; [|reflexivity].
    apply gtb_true in E. exfalso. apply (Qlt_not_le _ _ E H).
Qed.

(** What the drawdown loop keeps true of its variables. *)
Lemma drawdownStep_invariant st pnl :
  0 <= maxDrawdown st /\ runningPnL st <= peak st /\ 0 <= peak st /\
  peak st - runningPnL st <= maxDrawdown st ->
  0 <= maxDrawdown (drawdownStep st pnl) /\
  runningPnL (drawdownStep st pnl) <= peak (drawdownStep st pnl) /\
  0 <= peak (drawdownStep st pnl) /\
  peak (drawdownStep st pnl) - runningPnL (drawdownStep st pnl)
    <= maxDrawdown (drawdownStep st pnl) /\
  maxDrawdown st <= maxDrawdown (drawdownStep st pnl) /\
  peak st <= peak (drawdownStep st pnl).
Proof.
  intros (H1 & H2 & H3 & H4). unfold drawdownStep. simpl.
  destruct (Js.gtb (runningPnL st + pnl) (peak st)) eqn:Ep.
  - apply gtb_true in Ep.
    destruct (Js.gtb (runningPnL st + pnl - (runningPnL st + pnl)) (maxDrawdown st)) eqn:Ed.
    + apply gtb_true in Ed. repeat split; lra.
    + apply gtb_false in Ed. repeat split; lra.
  - apply gtb_false in Ep.
    destruct (Js.gtb (peak st - (runningPnL st + pnl)) (maxDrawdown st)) eqn:Ed.
    + apply gtb_true in Ed. repeat split; lra.
    + apply gtb_false in Ed. repeat split; lra.
Qed.

Lemma drawdown_run_invariant pnls : forall st,
  0 <= maxDrawdown st /\ runningPnL st <= peak st /\ 0 <= peak st /\
  peak st - runningPnL st <= maxDrawdown st ->
  let st' := fold_left drawdownStep pnls st in
  0 <= maxDrawdown st' /\ runningPnL st' <= peak st' /\ 0 <= peak st' /\
  peak st' - runningPnL st' <= maxDrawdown st' /\
  maxDrawdown st <= maxDrawdown st'.
Proof.
  induction pnls as [|p pnls IH]; intros st H; simpl.
  - destruct H as (H1 & H2 & H3 & H4). repeat split; try assumption. lra.
  - destruct (drawdownStep_invariant st p H) as (A1 & A2 & A3 & A4 & A5 & _).
    destruct (IH (drawdownStep st p) (conj A1 (conj A2 (conj A3 A4))))
      as (B1 & B2 & B3 & B4 & B5).
    repeat split; try assumption. lra.
Qed.

Lemma drawdown_without_losses pnls : forall st,
  maxDrawdown st == 0 /\ peak st == runningPnL st ->
  Forall (fun p => 0 <= p) pnls ->
  maxDrawdown (fold_left drawdownStep pnls st) == 0 /\
  peak (fold_left drawdownStep pnls st) == runningPnL (fold_left drawdownStep pnls st).
Proof.
  induction pnls as [|p pnls IH]; intros st [H1 H2] Hall; simpl.
  - split; assumption.
  - inversion Hall as [|x l Hp Hrest]; subst.
    apply IH; [|exact Hrest].
    unfold drawdownStep. simpl.
    destruct (Js.gtb (runningPnL st + p) (peak st)) eqn:Ep.
    + destruct (Js.gtb (runningPnL st + p - (runningPnL st + p)) (maxDrawdown st)) eqn:Ed.
      * apply gtb_true in Ed. exfalso. lra.
      * split; [exact H1 | reflexivity].
    + apply gtb_false in Ep.
      destruct (Js.gtb (peak st - (runningPnL st + p)) (maxDrawdown st)) eqn:Ed.
      * apply gtb_true in Ed. exfalso. lra.
      * split; [exact H1 | lra].
Qed.

(** X23. The max-drawdown loop.  The result is never negative; the
    running pnl never stands above the recorded peak, which is never below
    zero; the drop from the peak reached after any first part of the trades
    is at most the final max drawdown; and a record without a losing trade
    has max drawdown zero. *)
Theorem max_drawdown_loop_sound :
  forall (first later : list Q),
    0 <= maxDrawdown (drawdownLoop (first ++ later)) /\
    runningPnL (drawdownLoop (first ++ later)) <= peak (drawdownLoop (first ++ later)) /\
    0 <= peak (drawdownLoop (first ++ later)) /\
    peak (drawdownLoop first) - runningPnL (drawdownLoop first)
      <= maxDrawdown (drawdownLoop (first ++ later)) /\
    (Forall (fun p => 0 <= p) (first ++ later) ->
     maxDrawdown (drawdownLoop (first ++ later)) == 0).
Proof.
  intros first later.
  assert (H0 : 0 <= maxDrawdown (mkDrawdown 0 0 0) /\
               runningPnL (mkDrawdown 0 0 0) <= peak (mkDrawdown 0 0 0) /\
               0 <= peak (mkDrawdown 0 0 0) /\
               peak (mkDrawdown 0 0 0) - runningPnL (mkDrawdown 0 0 0)
                 <= maxDrawdown (mkDrawdown 0 0 0)).
  { simpl. repeat split; lra. }
  pose proof (drawdown_run_invariant first _ H0) as H1. cbv zeta in H1.
  destruct H1 as (A1 & A2 & A3 & A4 & _).
  pose proof (drawdown_run_invariant later _ (conj A1 (conj A2 (conj A3 A4)))) as H2.
  cbv zeta in H2. destruct H2 as (B1 & B2 & B3 & B4 & B5).
  unfold drawdownLoop in *. rewrite fold_left_app.
  repeat split; try assumption.
  - lra.
  - intro Hall.
    rewrite <- fold_left_app.
    apply (drawdown_without_losses (first ++ later) (mkDrawdown 0 0 0)); [|exact Hall].
    simpl. split; reflexivity.
Qed.

Lemma max_drawdown_loop_sound_witness :
  Forall (fun p => 0 <= p) ([10; 0] ++ [5]) /\
  maxDrawdown (drawdownLoop ([10; 0] ++ [5])) == 0.
Proof.
  assert (H : Forall (fun p => 0 <= p) ([10; 0] ++ [5])).
  { repeat constructor; discriminate. }
  split; [exact H|].
  exact (proj2 (proj2 (proj2 (proj2 (max_drawdown_loop_sound [10; 0] [5])))) H).
Defined.

Lemma streakStep_bounds st pnl wins losses :
  (maxConsecutiveWins st <= wins /\ currentWinStreak st <= wins /\
   maxConsecutiveLosses st <= losses /\ currentLossStreak st <= losses /\
   currentWinStreak st <= maxConsecutiveWins st /\
   currentLossStreak st <= maxConsecutiveLosses st)%nat ->
  let wins' := if Js.gtb pnl 0 then S wins else wins in
  let losses' := if Js.gtb 0 pnl then S losses else losses in
  (maxConsecutiveWins (streakStep st pnl) <= wins' /\
   currentWinStreak (streakStep st pnl) <= wins' /\
   maxConsecutiveLosses (streakStep st pnl) <= losses' /\
   currentLossStreak (streakStep st pnl) <= losses' /\
   currentWinStreak (streakStep st pnl) <= maxConsecutiveWins (streakStep st pnl) /\
   currentLossStreak (streakStep st pnl) <= maxConsecutiveLosses (streakStep st pnl))%nat.
Proof.
  intros (H1 & H2 & H3 & H4 & H5 & H6). unfold streakStep.
  destruct (Js.gtb pnl 0) eqn:Ew; destruct (Js.gtb 0 pnl) eqn:El; simpl;
    repeat split; lia.
Qed.

Lemma streak_run_bounds pnls : forall st wins losses,
  (maxConsecutiveWins st <= wins /\ currentWinStreak st <= wins /\
   maxConsecutiveLosses st <= losses /\ currentLossStreak st <= losses /\
   currentWinStreak st <= maxConsecutiveWins st /\
   currentLossStreak st <= maxConsecutiveLosses st)%nat ->
  (maxConsecutiveWins (fold_left streakStep pnls st)
   <= wins + List.length (filter (fun p => Js.gtb p 0) pnls) /\
   maxConsecutiveLosses (fold_left streakStep pnls st)
   <= losses + List.length (filter (fun p => Js.gtb 0 p) pnls))%nat.
Proof.
  induction pnls as [|p pnls IH]; intros st wins losses H; simpl.
  - destruct H as (H1 & _ & H3 & _). lia.
  - pose proof (streakStep_bounds st p wins losses H) as Hs. cbv zeta in Hs.
    specialize (IH _ _ _ Hs).
    destruct (Js.gtb p 0); destruct (Js.gtb 0 p); simpl; lia.
Qed.

Lemma streakStep_zero st pnl : pnl == 0 -> streakStep st pnl = st.
Proof.
  intro H. unfold streakStep.
  assert (E1 : Js.gtb pnl 0 = false) by (apply gtb_false; lra).
  assert (E2 : Js.gtb 0 pnl = false) by (apply gtb_false; lra).
  rewrite E1, E2. reflexivity.
Qed.

(** X24. The streak loop.  The longest winning streak is at most the
    number of winning trades and the longest losing streak at most the number
    of losing trades; and a break-even trade (pnl 0) neither extends nor
    interrupts a streak: removing the break-even trades from the record
    leaves both results unchanged. *)
Theorem streak_loop_sound :
  forall (pnls : list Q),
    (maxConsecutiveWins (streakLoop pnls)
     <= List.length (filter (fun p => Js.gtb p 0) pnls))%nat /\
    (maxConsecutiveLosses (streakLoop pnls)
     <= List.length (filter (fun p => Js.gtb 0 p) pnls))%nat /\
    streakLoop (filter (fun p => negb (Qeq_bool p 0)) pnls) = streakLoop pnls.
Proof.
  intro pnls. split; [|split].
  - apply (streak_run_bounds pnls (mkStreaks 0 0 0 0) 0 0). simpl. lia.
  - apply (streak_run_bounds pnls (mkStreaks 0 0 0 0) 0 0). simpl. lia.
  - unfold streakLoop. generalize (mkStreaks 0 0 0 0).
    induction pnls as [|p pnls IH]; intro st; simpl; [reflexivity|].
    destruct (Qeq_bool p 0) eqn:E; simpl.
    + apply Qeq_bool_iff in E. rewrite (streakStep_zero st p E). apply IH.
    + apply IH.
Qed.

Lemma sum_from l : forall a, fold_left Qplus l a == a + sum l.
Proof.
  unfold sum. induction l as [|x l IH]; intro a; simpl.
  - ring.
  - rewrite IH. rewrite (IH (0 + x)). ring.
Qed.

Lemma sum_nonneg l : Forall (fun p => 0 <= p) l -> 0 <= sum l.
Proof.
  induction l as [|x l IH]; intro H.
  - unfold sum. simpl. lra.
  - inversion H; subst. unfold sum. simpl. rewrite sum_from.
    specialize (IH H3). lra.
Qed.

Lemma wins_nonneg pnls : 0 <= sum (filter (fun p => Js.gtb p 0) pnls).
Proof.
  apply sum_nonneg. apply Forall_forall. intros x Hx.
  apply filter_In in Hx as [_ Hx]. apply gtb_true in Hx. lra.
Qed.

(** X25. The profit factor of the report is never negative, and it is 0,
    not infinite, for a record without a losing trade, however profitable;
    both also after the rounding to two decimals. *)
Theorem profit_factor_edges :
  forall (pnls : list Q),
    0 <= profitFactor pnls /\ 0 <= round2 (profitFactor pnls) /\
    (Forall (fun p => 0 <= p) pnls ->
     profitFactor pnls = 0 /\ round2 (profitFactor pnls) == 0).
Proof.
  intro pnls.
  assert (Hpf : 0 <= profitFactor pnls).
  { unfold profitFactor.
    destruct (Js.gtb (Qabs (sum (filter (fun p => Js.gtb 0 p) pnls))) 0) eqn:E;
      [|lra].
    apply gtb_true in E.
    apply Qle_shift_div_l; [exact E|]. rewrite Qmult_0_l. apply wins_nonneg. }
  split; [exact Hpf|]. split.
  - unfold round2, Js.floor.
    apply Qle_shift_div_l; [reflexivity|]. rewrite Qmult_0_l.
    change 0 with (inject_Z 0). rewrite <- Zle_Qle.
    assert (H0 : (Qfloor 0 <= Qfloor (profitFactor pnls * 100 + (1 # 2)))%Z).
    { apply Qfloor_resp_le. lra. }
    exact H0.
  - intro Hall.
    assert (Hnone : filter (fun p => Js.gtb 0 p) pnls = []).
    { induction pnls as [|x l IH]; [reflexivity|].
      inversion Hall; subst. simpl.
      assert (E : Js.gtb 0 x = false) by (apply gtb_false; assumption).
      rewrite E. apply IH; [|assumption].
      unfold profitFactor in *. clear Hpf.
      destruct (Js.gtb (Qabs (sum (filter (fun p => Js.gtb 0 p) l))) 0) eqn:E2; [|lra].
      apply gtb_true in E2.
      apply Qle_shift_div_l; [exact E2|]. rewrite Qmult_0_l. apply wins_nonneg. }
    assert (E0 : profitFactor pnls = 0).
    { unfold profitFactor. rewrite Hnone. reflexivity. }
    split; [exact E0|]. rewrite E0. reflexivity.
Qed.

Lemma profit_factor_edges_witness :
  Forall (fun p => 0 <= p) [120; 0; 35] /\
  profitFactor [120; 0; 35] = 0.
Proof.
  assert (H : Forall (fun p => 0 <= p) [120; 0; 35]).
  { repeat constructor; discriminate. }
  split; [exact H|].
  exact (proj1 (proj2 (proj2 (profit_factor_edges [120; 0; 35])) H)).
Defined.

End MetricsFacts.
